(** * The IT Admin agent: mock diagnostics tools and the agentic chat loop

    A shallow embedding of [agents/it-admin/tools/__init__.py] and of the
    [chat] endpoint of [agents/it-admin/app.py], with the properties of the
    specification stated over it.

    Conventions of the embedding.
    - Python values that travel as JSON are terms of [json]; a [dict] is an
      association list in insertion order.
    - An instant is a number of microseconds since 1970-01-01T00:00:00; the
      text [dt.isoformat()] of an instant [t] is kept as [JTime t].  All
      instants of one handler call are one reading of the clock minus whole
      minutes, hours or days, so their ISO texts have the same length and
      compare as the instants do: sorting on the text is sorting on [t].
    - [random] and [datetime.utcnow] read from oracles carried by [World];
      every outcome of the randomness is some oracle.
    - A Python exception is the [Raised] outcome. *)

From Stdlib Require Import ZArith List String Ascii Lia QArith DecimalString.
From Stdlib Require Import Sorting.Sorted.
From stdpp Require Import gmap strings list.

Open Scope string_scope.
Open Scope Z_scope.

(** ** Values *)

#[warnings="-register-all"]
Inductive json : Type :=
| JNull
| JBool (b : bool)
| JInt (z : Z)
| JFloat (q : Q)
| JStr (s : string)
| JTime (t : Z)
| JList (l : list json)
| JObj (kv : list (string * json)).

(** [d[k]] and [k in d] for a [dict] with string keys. *)
Fixpoint assoc {A : Type} (k : string) (kv : list (string * A)) : option A :=
  match kv with
  | [] => None
  | (k', v) :: rest => if String.eqb k k' then Some v else assoc k rest
  end.

Definition jget (k : string) (j : json) : option json :=
  match j with
  | JObj kv => assoc k kv
  | _ => None
  end.

Definition has_key (k : string) (j : json) : bool :=
  match jget k j with Some _ => true | None => false end.

(** The values a tool call passes to a handler: the two JSON types that the
    tool schemas declare for parameters. *)
Inductive pyval : Type :=
| VStr (s : string)
| VInt (z : Z).

Definition to_json (v : pyval) : json :=
  match v with
  | VStr s => JStr s
  | VInt z => JInt z
  end.

(** [v == "literal"] *)
Definition eq_str (v : pyval) (s : string) : bool :=
  match v with
  | VStr s' => String.eqb s' s
  | VInt _ => false
  end.

(** [v in ["a", "b", ...]] *)
Definition in_strs (v : pyval) (l : list string) : bool :=
  existsb (eq_str v) l.

(** [str(v)], as an f-string renders it. *)
Definition py_str (v : pyval) : string :=
  match v with
  | VStr s => s
  | VInt z => NilZero.string_of_int (Z.to_int z)
  end.

(** ** Outcomes and effects *)

(** Python exceptions, with the text of [str(e)].  [JSONDecodeError] and
    [ValidationError] are those of [json] and of [pydantic]: their text
    depends on the offending input and is not kept. *)
Inductive exn : Type :=
| TypeError (what : string)
| ValueError (what : string)
| IndexError
| OverflowError (what : string)
| KeyError (key : string)
| JSONDecodeError
| ValidationError
| ModelCallFailure (what : string).

Inductive Outcome (A : Type) : Type :=
| Returned (a : A)
| Raised (e : exn).
Arguments Returned {A} a.
Arguments Raised {A} e.

(** The sources of nondeterminism of the tools: the draws of [random] and
    the readings of the clock, each with the number of values consumed. *)
Record World : Type := mkWorld {
  rand_src : nat -> Z;
  rand_pos : nat;
  clock_src : nat -> N;
  clock_pos : nat
}.

(** A computation over a state [S] that returns or raises; the state
    survives an exception, as Python's mutations do. *)
Definition M (S A : Type) : Type := S -> Outcome A * S.

(** The tools compute over the world. *)
Definition Eff (A : Type) : Type := M World A.

Definition ret {S A : Type} (a : A) : M S A := fun s => (Returned a, s).

Definition raise {S A : Type} (e : exn) : M S A := fun s => (Raised e, s).

Definition bind {S A B : Type} (m : M S A) (f : A -> M S B) : M S B :=
  fun s =>
    match m s with
    | (Returned a, s') => f a s'
    | (Raised e, s') => (Raised e, s')
    end.

Notation "x <- m ;; k" := (bind m (fun x => k))
  (at level 100, m at next level, right associativity).

Definition lift {S A : Type} (o : Outcome A) : M S A := fun s => (o, s).

(** [datetime.utcnow()] *)
Definition utcnow : Eff N :=
  fun w => (Returned (clock_src w (clock_pos w)),
            mkWorld (rand_src w) (rand_pos w) (clock_src w) (S (clock_pos w))).

Definition draw : Eff Z :=
  fun w => (Returned (rand_src w (rand_pos w)),
            mkWorld (rand_src w) (S (rand_pos w)) (clock_src w) (clock_pos w)).

(** [random.randint(a, b)]: an integer of [a..b], [ValueError] when the
    range is empty. *)
Definition randint (a b : Z) : Eff Z :=
  if b <? a then raise (ValueError "empty range for randrange()")
  else r <- draw ;; ret (a + r mod (b - a + 1)).

(** [random.choice(seq)] *)
Definition choice {A : Type} (seq : list A) : Eff A :=
  match seq with
  | [] => raise IndexError
  | x :: _ =>
      r <- draw ;;
      ret (nth (Z.to_nat (r mod Z.of_nat (length seq))) seq x)
  end.

(** ** Instants and [timedelta] *)

Definition US_PER_MINUTE : Z := 60000000.
Definition US_PER_HOUR : Z := 60 * US_PER_MINUTE.
Definition US_PER_DAY : Z := 24 * US_PER_HOUR.

(** [datetime.min] is 0001-01-01T00:00:00, 719162 days before the epoch. *)
Definition DATETIME_MIN : Z := - (719162 * US_PER_DAY).

(** [%d] *)
Definition decimal (z : Z) : string := NilZero.string_of_int (Z.to_int z).

(** [timedelta(days=d, hours=h, minutes=m)]: the length in microseconds;
    [OverflowError] when the normalised day count does not fit a C [int],
    or exceeds 999999999 in magnitude. *)
Definition timedelta (days hours minutes : Z) : Outcome Z :=
  let us := days * US_PER_DAY + hours * US_PER_HOUR + minutes * US_PER_MINUTE in
  let d := us / US_PER_DAY in
  if (2147483647 <? d) || (d <? -2147483648)
  then Raised (OverflowError "Python int too large to convert to C int")
  else if 999999999 <? Z.abs d
  then Raised (OverflowError ("days=" ++ decimal d ++ "; must have magnitude <= 999999999"))
  else Returned us.

(** [now - delta] for a non-negative [delta]: [OverflowError] when the
    result is before [datetime.min]. *)
Definition datetime_sub (now : N) (delta : Z) : Outcome Z :=
  let t := Z.of_N now - delta in
  if t <? DATETIME_MIN then Raised (OverflowError "date value out of range")
  else Returned t.

(** [now - timedelta(days=d, hours=h, minutes=m)] *)
Definition ago (now : N) (days hours minutes : Z) : Outcome Z :=
  match timedelta days hours minutes with
  | Returned delta => datetime_sub now delta
  | Raised e => Raised e
  end.

(** ** The mock inventory *)

Record MockResource : Type := mkResource {
  res_type : string;
  res_resource_group : string;
  res_subscription : string;
  res_region : string;
  res_tags : json;
  res_config : json;
  res_upstream : list string;
  res_downstream : list string
}.

Definition strs (l : list string) : json := JList (map JStr l).

Definition MOCK_RESOURCES : list (string * MockResource) :=
  [ ("web-app-prod",
     mkResource "container_app" "rg-production" "prod-subscription" "eastus"
       (JObj [("environment", JStr "production"); ("team", JStr "platform");
              ("cost-center", JStr "12345")])
       (JObj [("sku", JStr "D4");
              ("replicas", JObj [("min", JInt 2); ("max", JInt 10); ("current", JInt 4)]);
              ("cpu", JStr "2.0");
              ("memory", JStr "4Gi");
              ("image", JStr "myregistry.azurecr.io/webapp:v2.3.1");
              ("ingress", JObj [("external", JBool true); ("targetPort", JInt 8080)]);
              ("environment_variables", strs ["DATABASE_URL"; "REDIS_URL"; "API_KEY"]);
              ("managed_identity", JBool true)])
       ["sql-db-main"; "redis-cache-prod"; "storage-prod"]
       ["api-gateway"; "cdn-endpoint"]);
    ("sql-db-main",
     mkResource "sql_database" "rg-production" "prod-subscription" "eastus"
       (JObj [("environment", JStr "production"); ("team", JStr "data");
              ("cost-center", JStr "12345")])
       (JObj [("sku", JStr "GP_Gen5_4");
              ("tier", JStr "GeneralPurpose");
              ("max_size_gb", JInt 256);
              ("current_size_gb", JInt 127);
              ("backup_retention_days", JInt 35);
              ("geo_redundant_backup", JBool true);
              ("connection_policy", JStr "Default");
              ("tls_version", JStr "1.2")])
       []
       ["web-app-prod"; "reporting-service"; "etl-pipeline"]);
    ("api-gateway",
     mkResource "api_management" "rg-production" "prod-subscription" "eastus"
       (JObj [("environment", JStr "production"); ("team", JStr "platform")])
       (JObj [("sku", JStr "Premium");
              ("capacity", JInt 2);
              ("gateway_url", JStr "https://api.contoso.com");
              ("developer_portal", JBool true);
              ("virtual_network", JStr "internal");
              ("certificates", JInt 3);
              ("apis", JInt 12);
              ("products", JInt 4)])
       ["web-app-prod"; "auth-service"]
       ["mobile-app"; "partner-integrations"]);
    ("redis-cache-prod",
     mkResource "redis_cache" "rg-production" "prod-subscription" "eastus"
       (JObj [("environment", JStr "production"); ("team", JStr "platform")])
       (JObj [("sku", JStr "Premium");
              ("capacity", JInt 1);
              ("family", JStr "P");
              ("shard_count", JInt 2);
              ("tls_enabled", JBool true);
              ("non_ssl_port_enabled", JBool false);
              ("max_memory_policy", JStr "volatile-lru")])
       []
       ["web-app-prod"; "session-service"]);
    ("storage-prod",
     mkResource "storage_account" "rg-production" "prod-subscription" "eastus"
       (JObj [("environment", JStr "production"); ("team", JStr "platform")])
       (JObj [("sku", JStr "Standard_GRS");
              ("kind", JStr "StorageV2");
              ("access_tier", JStr "Hot");
              ("https_only", JBool true);
              ("min_tls_version", JStr "TLS1_2");
              ("blob_public_access", JBool false);
              ("containers", strs ["uploads"; "exports"; "backups"; "logs"])])
       []
       ["web-app-prod"; "backup-service"; "log-analytics"]) ].

(** [MOCK_RESOURCES[name]] when [name in MOCK_RESOURCES]; a value that is
    not a string equals no key. *)
Definition find_resource (resource_name : pyval) : option MockResource :=
  match resource_name with
  | VStr s => assoc s MOCK_RESOURCES
  | VInt _ => None
  end.

(** ** Handlers without randomness *)

Definition get_system_config (resource_name resource_type : pyval) : json :=
  match find_resource resource_name with
  | Some resource =>
      JObj [("resource_name", to_json resource_name);
            ("resource_type", JStr (res_type resource));
            ("region", JStr (res_region resource));
            ("resource_group", JStr (res_resource_group resource));
            ("configuration", res_config resource);
            ("tags", res_tags resource)]
  | None =>
      JObj [("resource_name", to_json resource_name);
            ("resource_type", to_json resource_type);
            ("region", JStr "eastus");
            ("resource_group", JStr "rg-production");
            ("configuration",
             JObj [("status", JStr "running");
                   ("sku", JStr "Standard");
                   ("note", JStr "Generic configuration - resource not found in detailed inventory")]);
            ("tags", JObj [("environment", JStr "production")])]
  end.

(** [len(l)] as a JSON integer. *)
Definition jlen {A : Type} (l : list A) : json := JInt (Z.of_nat (length l)).

Definition check_dependencies (resource_name : pyval) : json :=
  match find_resource resource_name with
  | Some resource =>
      JObj [("resource", to_json resource_name);
            ("upstream_dependencies", strs (res_upstream resource));
            ("downstream_dependencies", strs (res_downstream resource));
            ("upstream_count", jlen (res_upstream resource));
            ("downstream_count", jlen (res_downstream resource))]
  | None =>
      JObj [("resource", to_json resource_name);
            ("upstream_dependencies", JList []);
            ("downstream_dependencies", JList []);
            ("message", JStr "Resource not found in dependency map")]
  end.

Definition get_resource_details (resource_name : pyval) : Eff json :=
  match find_resource resource_name with
  | Some resource =>
      now1 <- utcnow ;;
      created_at <- lift (ago now1 180 0 0) ;;
      now2 <- utcnow ;;
      last_modified <- lift (ago now2 0 2 0) ;;
      ret (JObj [("resource_name", to_json resource_name);
                 ("resource_type", JStr (res_type resource));
                 ("resource_group", JStr (res_resource_group resource));
                 ("subscription", JStr (res_subscription resource));
                 ("region", JStr (res_region resource));
                 ("tags", res_tags resource);
                 ("provisioning_state", JStr "Succeeded");
                 ("created_at", JTime created_at);
                 ("last_modified", JTime last_modified);
                 ("resource_id",
                  JStr ("/subscriptions/" ++ res_subscription resource
                        ++ "/resourceGroups/" ++ res_resource_group resource
                        ++ "/providers/Microsoft.App/containerApps/"
                        ++ py_str resource_name))])
  | None =>
      ret (JObj [("resource_name", to_json resource_name);
                 ("error", JStr "Resource not found in inventory");
                 ("suggestion",
                  JStr "Check resource name spelling or verify the resource exists")])
  end.

Definition get_service_health (service region : pyval) : Eff json :=
  if eq_str service "Azure SQL" && eq_str region "eastus" then
    now1 <- utcnow ;;
    start_time <- lift (ago now1 0 2 0) ;;
    now2 <- utcnow ;;
    update_time <- lift (ago now2 0 0 30) ;;
    ret (JObj [("service", to_json service);
               ("region", to_json region);
               ("status", JStr "degraded");
               ("active_incidents",
                JList [JObj [("incident_id", JStr "SQL-2024-0215");
                             ("title", JStr "Intermittent connectivity issues");
                             ("status", JStr "investigating");
                             ("start_time", JTime start_time);
                             ("description",
                              JStr "Some customers may experience intermittent connection timeouts to Azure SQL databases in East US region.");
                             ("impacted_services",
                              strs ["Azure SQL Database"; "SQL Managed Instance"]);
                             ("updates",
                              JList [JObj [("time", JTime update_time);
                                           ("message",
                                            JStr "Engineering team has identified the root cause and is implementing a fix.")]])]])])
  else
    ret (JObj [("service", to_json service);
               ("region", to_json region);
               ("status", JStr "healthy");
               ("active_incidents", JList []);
               ("message",
                JStr ("No known issues affecting " ++ py_str service
                      ++ " in " ++ py_str region))]).

(** ** Generators with randomness *)

(** A Python [float] is kept as the exact rational the expression denotes. *)
Definition jfloat_mul (z : Z) (q : Q) : json := JFloat (inject_Z z * q)%Q.

(** [int(z * q)] for a non-negative product: truncation towards zero. *)
Definition int_of_product (z : Z) (num den : Z) : json := JInt (Z.quot (z * num) den).

Definition _generate_metrics (resource_name metric_type time_range : pyval) : Eff json :=
  let has_cpu_issue := eq_str resource_name "web-app-prod" in
  let has_latency_issue := eq_str resource_name "sql-db-main" in
  let has_error_spike := eq_str resource_name "api-gateway" in
  now <- utcnow ;;
  cpu <- (if in_strs metric_type ["cpu"; "all"] then
            let base_cpu := if has_cpu_issue then 85 else 35 in
            jitter <- randint (-5) 10 ;;
            ret [("cpu",
                  JObj [("current_percent", JInt (base_cpu + jitter));
                        ("average_percent", JInt (base_cpu - 5));
                        ("max_percent", JInt (base_cpu + 15));
                        ("min_percent", JInt (base_cpu - 20));
                        ("status", JStr (if has_cpu_issue then "critical" else "healthy"))])]
          else ret []) ;;
  memory <- (if in_strs metric_type ["memory"; "all"] then
               let base_mem := if has_cpu_issue then 70 else 45 in
               jitter <- randint (-5) 10 ;;
               ret [("memory",
                     JObj [("current_percent", JInt (base_mem + jitter));
                           ("average_percent", JInt (base_mem - 3));
                           ("used_gb", jfloat_mul base_mem (4 # 100));
                           ("available_gb", jfloat_mul (100 - base_mem) (4 # 100));
                           ("status", JStr (if has_cpu_issue then "warning" else "healthy"))])]
             else ret []) ;;
  latency <- (if in_strs metric_type ["latency"; "all"] then
                let base_latency := if has_latency_issue then 850 else 45 in
                ret [("latency",
                      JObj [("p50_ms", JInt base_latency);
                            ("p95_ms", jfloat_mul base_latency (25 # 10));
                            ("p99_ms", JInt (base_latency * 4));
                            ("average_ms", jfloat_mul base_latency (12 # 10));
                            ("status", JStr (if has_latency_issue then "critical" else "healthy"))])]
              else ret []) ;;
  requests <- (if in_strs metric_type ["requests"; "all"] then
                 total <- randint 50000 150000 ;;
                 successful <- randint 45000 145000 ;;
                 failed <- (if has_error_spike then randint 100 2000 else randint 10 100) ;;
                 rate <- randint 50 200 ;;
                 ret [("requests",
                       JObj [("total", JInt total);
                             ("successful", JInt successful);
                             ("failed", JInt failed);
                             ("rate_per_second", JInt rate)])]
               else ret []) ;;
  errors <- (if in_strs metric_type ["errors"; "all"] then
               error_count <- (if has_error_spike then randint 500 2000 else randint 5 50) ;;
               ret [("errors",
                     JObj [("total", JInt error_count);
                           ("rate_percent", jfloat_mul error_count (1 # 10));
                           ("by_type",
                            JObj [("500", int_of_product error_count 4 10);
                                  ("502", int_of_product error_count 3 10);
                                  ("503", int_of_product error_count 2 10);
                                  ("timeout", int_of_product error_count 1 10)]);
                           ("status", JStr (if has_error_spike then "critical" else "healthy"))])]
             else ret []) ;;
  ret (JObj [("resource", to_json resource_name);
             ("time_range", to_json time_range);
             ("collected_at", JTime (Z.of_N now));
             ("data", JObj (cpu ++ memory ++ latency ++ requests ++ errors))]).

Definition get_system_metrics (resource_name metric_type time_range : pyval) : Eff json :=
  _generate_metrics resource_name metric_type time_range.

(** [for i in range(n): acc.append(body(i))] *)
Fixpoint for_each {A B : Type} (body : A -> Eff B) (l : list A) : Eff (list B) :=
  match l with
  | [] => ret []
  | i :: rest =>
      x <- body i ;;
      xs <- for_each body rest ;;
      ret (x :: xs)
  end.

Definition for_range {B : Type} (n : Z) (body : nat -> Eff B) : Eff (list B) :=
  for_each body (seq 0 (Z.to_nat n)).

(** [l.sort(key=key, reverse=True)]: stable, largest key first. *)
Fixpoint insert_desc {A : Type} (key : A -> Z) (x : A) (l : list A) : list A :=
  match l with
  | [] => [x]
  | y :: rest =>
      if key y <=? key x then x :: y :: rest
      else y :: insert_desc key x rest
  end.

Definition sort_desc {A : Type} (key : A -> Z) (l : list A) : list A :=
  fold_right (insert_desc key) [] l.

(** [l[:stop]] *)
Definition slice_to {A : Type} (stop : Z) (l : list A) : list A :=
  if stop <? 0 then firstn (Z.to_nat (Z.of_nat (length l) + stop)) l
  else firstn (Z.to_nat stop) l.

(** [min(v, n)] for an integer [n]; comparing a [str] with an [int] raises. *)
Definition py_min (v : pyval) (n : Z) : Outcome Z :=
  match v with
  | VInt z => Returned (Z.min z n)
  | VStr _ => Raised (TypeError "'<' not supported between instances of 'int' and 'str'")
  end.

Record LogEntry : Type := mkLog {
  log_timestamp : Z;
  log_severity : string;
  log_message : string;
  log_source : pyval;
  log_correlation_id : string
}.

Definition log_json (e : LogEntry) : json :=
  JObj [("timestamp", JTime (log_timestamp e));
        ("severity", JStr (log_severity e));
        ("message", JStr (log_message e));
        ("source", to_json (log_source e));
        ("correlation_id", JStr (log_correlation_id e))].

Definition error_templates : list (string * string) :=
  [ ("Connection to database timed out after 30s", "sql-db-main");
    ("Redis connection pool exhausted, waiting for available connection", "redis-cache-prod");
    ("Request failed with status 503: Service Unavailable", "api-gateway");
    ("Out of memory: Container killed by OOM killer", "web-app-prod");
    ("SSL certificate validation failed for upstream", "api-gateway");
    ("Rate limit exceeded for client IP 203.0.113.42", "api-gateway") ].

Definition warning_templates : list (string * string) :=
  [ ("High CPU utilization detected (>80%)", "web-app-prod");
    ("Query execution time exceeded threshold (>5s)", "sql-db-main");
    ("Cache miss rate above normal (>30%)", "redis-cache-prod");
    ("Slow response detected from downstream service", "web-app-prod");
    ("Certificate expires in 14 days", "api-gateway");
    ("Storage account approaching 80% capacity", "storage-prod") ].

Definition info_templates : list (string * string) :=
  [ ("Successfully scaled to 4 replicas", "web-app-prod");
    ("Deployment completed: v2.3.1", "web-app-prod");
    ("Database backup completed successfully", "sql-db-main");
    ("Health check passed", "web-app-prod");
    ("Configuration reloaded", "api-gateway") ].

(** A template as the generator uses it: message, severity, source. *)
Definition tagged (sev : string) (l : list (string * string))
  : list (string * string * string) :=
  map (fun '(t, r) => (t, sev, r)) l.

Definition templates_for (resource_name severity : pyval)
  : list (string * string * string) :=
  let templates_to_use :=
    ((if in_strs severity ["all"; "error"] then tagged "error" error_templates else [])
     ++ (if in_strs severity ["all"; "warning"] then tagged "warning" warning_templates else [])
     ++ (if in_strs severity ["all"; "info"] then tagged "info" info_templates else []))%list in
  if negb (eq_str resource_name "all") then
    List.filter (fun t => eq_str resource_name (snd t) || String.eqb (snd t) "web-app-prod")
                templates_to_use
  else templates_to_use.

Definition _generate_logs (resource_name severity limit : pyval) : Eff (list LogEntry) :=
  now <- utcnow ;;
  let templates_to_use := templates_for resource_name severity in
  n <- lift (py_min limit (Z.of_nat (length templates_to_use) * 3)) ;;
  logs <- for_range n (fun _ =>
            template <- (match templates_to_use with
                         | [] => ret ("No logs available", "info", resource_name)
                         | _ => t <- choice templates_to_use ;;
                                ret (fst (fst t), snd (fst t), VStr (snd t))
                         end) ;;
            minutes <- randint 1 360 ;;
            timestamp <- lift (ago now 0 0 minutes) ;;
            corr <- randint 10000 99999 ;;
            ret (mkLog timestamp (snd (fst template)) (fst (fst template)) (snd template)
                       ("corr-" ++ py_str (VInt corr)))) ;;
  let sorted := sort_desc log_timestamp logs in
  match limit with
  | VInt stop => ret (slice_to stop sorted)
  | VStr _ => raise (TypeError "slice indices must be integers")
  end.

Definition get_recent_logs (resource_name severity limit : pyval) : Eff json :=
  logs <- _generate_logs resource_name severity limit ;;
  ret (JObj [("resource", to_json resource_name);
             ("severity_filter", to_json severity);
             ("count", jlen logs);
             ("logs", JList (map log_json logs))]).

Record ChangeTemplate : Type := mkTemplate {
  ct_type : string;
  ct_description : string;
  ct_user : string;
  ct_details : json
}.

Definition change_templates : list ChangeTemplate :=
  [ mkTemplate "deployment" "Deployed new version v2.3.1" "deploy-pipeline@contoso.com"
      (JObj [("old_version", JStr "v2.3.0"); ("new_version", JStr "v2.3.1");
             ("replicas", JInt 4)]);
    mkTemplate "configuration" "Updated environment variable DATABASE_TIMEOUT"
      "john.smith@contoso.com"
      (JObj [("setting", JStr "DATABASE_TIMEOUT"); ("old_value", JStr "30");
             ("new_value", JStr "60")]);
    mkTemplate "scaling" "Auto-scaled from 2 to 4 replicas" "system"
      (JObj [("trigger", JStr "cpu_threshold"); ("old_replicas", JInt 2);
             ("new_replicas", JInt 4)]);
    mkTemplate "configuration" "Increased max connections pool size" "jane.doe@contoso.com"
      (JObj [("setting", JStr "MAX_POOL_SIZE"); ("old_value", JStr "100");
             ("new_value", JStr "200")]);
    mkTemplate "security" "Rotated managed identity credentials"
      "security-automation@contoso.com"
      (JObj [("credential_type", JStr "managed_identity")]) ].

Record Change : Type := mkChange {
  ch_timestamp : Z;
  ch_resource : pyval;
  ch_template : ChangeTemplate
}.

Definition change_json (c : Change) : json :=
  JObj [("timestamp", JTime (ch_timestamp c));
        ("resource", to_json (ch_resource c));
        ("type", JStr (ct_type (ch_template c)));
        ("description", JStr (ct_description (ch_template c)));
        ("user", JStr (ct_user (ch_template c)));
        ("details", ct_details (ch_template c))].

(** [randint(0, days)]: [days] is an integer here, [min(days, ...)] has
    already raised for a string. *)
Definition randint_upto (days : pyval) : Eff Z :=
  match days with
  | VInt d => randint 0 d
  | VStr _ => raise (TypeError "can only concatenate str (not 'int') to str")
  end.

Definition _generate_changes (resource_name days : pyval) : Eff (list Change) :=
  now <- utcnow ;;
  n <- lift (py_min days (Z.of_nat (length change_templates))) ;;
  changes <- for_range n (fun i =>
               match nth_error change_templates i with
               | None => raise IndexError
               | Some template =>
                   d <- randint_upto days ;;
                   h <- randint 0 23 ;;
                   timestamp <- lift (ago now d h 0) ;;
                   ret (mkChange timestamp resource_name template)
               end) ;;
  ret (sort_desc ch_timestamp changes).

Definition get_recent_changes (resource_name days : pyval) : Eff json :=
  changes <- _generate_changes resource_name days ;;
  ret (JObj [("resource", to_json resource_name);
             ("time_period_days", to_json days);
             ("change_count", jlen changes);
             ("changes", JList (map change_json changes))]).

(** * The chat endpoint *)

(** ** Keyword calls: a handler applied to the parsed arguments as keywords *)

Definition kwargs : Type := list (string * pyval).

(** A keyword that names no parameter is refused before anything else. *)
Definition check_keywords (fname : string) (params : list string) (function_args : kwargs)
  : Outcome unit :=
  match List.find (fun kv => negb (existsb (String.eqb (fst kv)) params)) function_args with
  | Some kv =>
      Raised (TypeError (fname ++ "() got an unexpected keyword argument '" ++ fst kv ++ "'"))
  | None => Returned tt
  end.

(** The names of a message: ['a'], ['a' and 'b'], ['a', 'b', and 'c']. *)
Definition listed (names : list string) : string :=
  match names with
  | [] => ""
  | [a] => a
  | [a; b] => a ++ " and " ++ b
  | _ => String.concat ", " (removelast names) ++ ", and " ++ List.last names ""
  end.

(** The parameters without a default that the keywords leave out are
    reported together, once every keyword has been accepted. *)
Definition missing_arguments (fname : string) (required : list string)
    (function_args : kwargs) : Outcome unit :=
  let missing :=
    List.filter (fun param => match assoc param function_args with
                              | Some _ => false
                              | None => true
                              end) required in
  match missing with
  | [] => Returned tt
  | _ =>
      Raised (TypeError (fname ++ "() missing " ++ decimal (Z.of_nat (length missing))
                         ++ " required positional argument"
                         ++ (if Nat.eqb (length missing) 1 then "" else "s") ++ ": "
                         ++ listed (map (fun name => "'" ++ name ++ "'") missing)))
  end.

(** The value bound to a parameter: the keyword, else the default, else
    the call fails (a handler reports its missing parameters together, with
    [missing_arguments], before it binds any). *)
Definition keyword (fname param : string) (default : option pyval) (function_args : kwargs)
  : Outcome pyval :=
  match assoc param function_args with
  | Some v => Returned v
  | None =>
      match default with
      | Some d => Returned d
      | None =>
          Raised (TypeError (fname ++ "() missing 1 required positional argument: '"
                             ++ param ++ "'"))
      end
  end.

Definition call_get_system_config (function_args : kwargs) : Eff json :=
  let f := "get_system_config" in
  ok <- lift (check_keywords f ["resource_name"; "resource_type"] function_args) ;;
  ok <- lift (missing_arguments f ["resource_name"; "resource_type"] function_args) ;;
  resource_name <- lift (keyword f "resource_name" None function_args) ;;
  resource_type <- lift (keyword f "resource_type" None function_args) ;;
  ret (get_system_config resource_name resource_type).

Definition call_get_system_metrics (function_args : kwargs) : Eff json :=
  let f := "get_system_metrics" in
  ok <- lift (check_keywords f ["resource_name"; "metric_type"; "time_range"] function_args) ;;
  ok <- lift (missing_arguments f ["resource_name"] function_args) ;;
  resource_name <- lift (keyword f "resource_name" None function_args) ;;
  metric_type <- lift (keyword f "metric_type" (Some (VStr "all")) function_args) ;;
  time_range <- lift (keyword f "time_range" (Some (VStr "1h")) function_args) ;;
  get_system_metrics resource_name metric_type time_range.

Definition call_get_recent_logs (function_args : kwargs) : Eff json :=
  let f := "get_recent_logs" in
  ok <- lift (check_keywords f ["resource_name"; "severity"; "limit"] function_args) ;;
  ok <- lift (missing_arguments f ["resource_name"] function_args) ;;
  resource_name <- lift (keyword f "resource_name" None function_args) ;;
  severity <- lift (keyword f "severity" (Some (VStr "all")) function_args) ;;
  limit <- lift (keyword f "limit" (Some (VInt 20)) function_args) ;;
  get_recent_logs resource_name severity limit.

Definition call_get_service_health (function_args : kwargs) : Eff json :=
  let f := "get_service_health" in
  ok <- lift (check_keywords f ["service"; "region"] function_args) ;;
  ok <- lift (missing_arguments f ["service"] function_args) ;;
  service <- lift (keyword f "service" None function_args) ;;
  region <- lift (keyword f "region" (Some (VStr "eastus")) function_args) ;;
  get_service_health service region.

Definition call_get_recent_changes (function_args : kwargs) : Eff json :=
  let f := "get_recent_changes" in
  ok <- lift (check_keywords f ["resource_name"; "days"] function_args) ;;
  ok <- lift (missing_arguments f ["resource_name"] function_args) ;;
  resource_name <- lift (keyword f "resource_name" None function_args) ;;
  days <- lift (keyword f "days" (Some (VInt 7)) function_args) ;;
  get_recent_changes resource_name days.

Definition call_check_dependencies (function_args : kwargs) : Eff json :=
  let f := "check_dependencies" in
  ok <- lift (check_keywords f ["resource_name"] function_args) ;;
  ok <- lift (missing_arguments f ["resource_name"] function_args) ;;
  resource_name <- lift (keyword f "resource_name" None function_args) ;;
  ret (check_dependencies resource_name).

Definition call_get_resource_details (function_args : kwargs) : Eff json :=
  let f := "get_resource_details" in
  ok <- lift (check_keywords f ["resource_name"] function_args) ;;
  ok <- lift (missing_arguments f ["resource_name"] function_args) ;;
  resource_name <- lift (keyword f "resource_name" None function_args) ;;
  get_resource_details resource_name.

Definition TOOL_FUNCTIONS : list (string * (kwargs -> Eff json)) :=
  [ ("get_system_config", call_get_system_config);
    ("get_system_metrics", call_get_system_metrics);
    ("get_recent_logs", call_get_recent_logs);
    ("get_service_health", call_get_service_health);
    ("get_recent_changes", call_get_recent_changes);
    ("check_dependencies", call_check_dependencies);
    ("get_resource_details", call_get_resource_details) ].

(** ** Messages, requests and responses *)

Inductive Role : Type := system | user | assistant | tool.

(** A text is kept as the pieces the program concatenates: [Dumps j] is
    [json.dumps(j)] and [DumpsIndented j] is [json.dumps(j, indent=2)]. *)
Inductive piece : Type :=
| Lit (s : string)
| Dumps (j : json)
| DumpsIndented (j : json).

(** [tool_call.function.arguments], by what [json.loads] makes of the
    text: an error, a JSON value that is no object (with the name of its
    Python type: [list], [str], [int], [float], [bool] or [NoneType]), or an
    object. *)
Inductive Arguments : Type :=
| Malformed
| NotAMapping (type_name : string)
| Mapping (function_args : kwargs).

Record ToolCallRequest : Type := mkRequest {
  tc_id : string;
  tc_name : string;
  tc_arguments : Arguments
}.

(** [response.choices[0].message]; an absent [tool_calls] is the empty list. *)
Record AssistantMessage : Type := mkAssistant {
  am_content : option string;
  am_tool_calls : list ToolCallRequest
}.

(** A stored message: a [dict] with [role] and [content], and with
    [tool_calls] or [tool_call_id] when it has the key. *)
Record Message : Type := mkMessage {
  msg_role : Role;
  msg_content : list piece;
  msg_tool_calls : option (list ToolCallRequest);
  msg_tool_call_id : option string
}.

Record ToolCall : Type := mkToolCall {
  tool_name : string;
  arguments : kwargs;
  result : json
}.

Record ChatRequest : Type := mkChatRequest {
  req_message : string;
  req_conversation_id : option string;
  req_context : option (list (string * json))
}.

Record ChatResponse : Type := mkChatResponse {
  response : string;
  conversation_id : string;
  tool_calls : list ToolCall
}.

(** The chat completion service: the reply to the [n]-th request, given
    the messages sent, or a failure of the call. *)
Definition Client : Type := nat -> list Message -> Outcome AssistantMessage.

(** The process state: the [conversations] dictionary, the world of the
    tools, and the number of completion requests made so far. *)
Record AppState : Type := mkApp {
  conversations : gmap string (list Message);
  world : World;
  completions : nat
}.

Definition App (A : Type) : Type := M AppState A.

Definition in_world {A : Type} (m : Eff A) : App A :=
  fun st =>
    match m (world st) with
    | (o, w') => (o, mkApp (conversations st) w' (completions st))
    end.

(** [conversations[cid].append(m)] *)
Definition append_message (cid : string) (m : Message) : App unit :=
  fun st =>
    match conversations st !! cid with
    | Some msgs =>
        (Returned tt,
         mkApp (<[cid := (msgs ++ [m])%list]> (conversations st)) (world st) (completions st))
    | None => (Raised (KeyError cid), st)
    end.

Fixpoint map_last {A : Type} (f : A -> A) (l : list A) : list A :=
  match l with
  | [] => []
  | [x] => [f x]
  | x :: rest => x :: map_last f rest
  end.

(** [conversations[cid][-1]["content"] += extra] *)
Definition extend_last_content (cid : string) (extra : list piece) : App unit :=
  fun st =>
    match conversations st !! cid with
    | Some [] => (Raised IndexError, st)
    | Some msgs =>
        let extend m :=
          mkMessage (msg_role m) (msg_content m ++ extra)%list
                    (msg_tool_calls m) (msg_tool_call_id m) in
        (Returned tt,
         mkApp (<[cid := map_last extend msgs]> (conversations st)) (world st) (completions st))
    | None => (Raised (KeyError cid), st)
    end.

(** [client.chat.completions.create(messages=conversations[cid], ...)] *)
Definition create (client : Client) (cid : string) : App AssistantMessage :=
  fun st =>
    match conversations st !! cid with
    | Some msgs =>
        (client (completions st) msgs,
         mkApp (conversations st) (world st) (S (completions st)))
    | None => (Raised (KeyError cid), st)
    end.

(** ** Minting a conversation identifier *)

(** [%0<width>d] *)
Fixpoint digits (width : nat) (z : Z) : string :=
  match width with
  | O => ""
  | S w => digits w (z / 10) ++ String (ascii_of_nat (48 + Z.to_nat (z mod 10))) ""
  end.

(** Year, month and day of a day count since 1970-01-01, in the proleptic
    Gregorian calendar. *)
Definition civil_from_days (days : Z) : Z * Z * Z :=
  let z := days + 719468 in
  let era := z / 146097 in
  let doe := z - era * 146097 in
  let yoe := (doe - doe / 1460 + doe / 36524 - doe / 146096) / 365 in
  let doy := doe - (365 * yoe + yoe / 4 - yoe / 100) in
  let mp := (5 * doy + 2) / 153 in
  let d := doy - (153 * mp + 2) / 5 + 1 in
  let m := if mp <? 10 then mp + 3 else mp - 9 in
  let y := yoe + era * 400 + (if m <=? 2 then 1 else 0) in
  (y, m, d).

(** [now.strftime('%Y%m%d%H%M%S%f')] *)
Definition strftime (now : N) : string :=
  let us := Z.of_N now in
  let '(y, m, d) := civil_from_days (us / US_PER_DAY) in
  let rest := us mod US_PER_DAY in
  digits 4 y ++ digits 2 m ++ digits 2 d
  ++ digits 2 (rest / US_PER_HOUR)
  ++ digits 2 (rest mod US_PER_HOUR / US_PER_MINUTE)
  ++ digits 2 (rest mod US_PER_MINUTE / 1000000)
  ++ digits 6 (rest mod 1000000).

(** ** The endpoint *)

Definition newline : string := String (ascii_of_nat 10) "".

Definition SYSTEM_PROMPT : string :=
"You are an expert IT Administrator troubleshooting agent. Your role is to help diagnose and resolve infrastructure issues.

When a user reports a problem:
1. First gather information about the affected system using available tools
2. Analyze metrics, logs, and configuration to identify potential issues
3. Check for recent changes that might have caused the problem
4. Provide a clear diagnosis with supporting evidence
5. Suggest remediation steps

Available tools:
- get_system_config: Get configuration details for Azure resources
- get_system_metrics: Get CPU, memory, latency, and other metrics
- get_recent_logs: Get recent log entries from a system
- get_service_health: Check if there are known Azure service issues
- get_recent_changes: Get recent deployments and configuration changes
- check_dependencies: List services this resource depends on
- get_resource_details: Get detailed information about an Azure resource

Always be thorough in your investigation. Use multiple tools to build a complete picture.
Explain your reasoning as you go. Cite specific data from tool outputs.

If you cannot determine the root cause, suggest what additional information would help.".

Definition FALLBACK_REPLY : string :=
  "I apologize, but I couldn't generate a response.".

Definition LIMIT_REPLY : string :=
  "I've gathered a lot of information but reached my processing limit. Here's what I found so far based on the tool calls.".

Definition max_iterations : nat := 10.

Definition system_message : Message :=
  mkMessage system [Lit SYSTEM_PROMPT] None None.

Definition user_message (text : string) : Message :=
  mkMessage user [Lit text] None None.

(** The assistant's message that carries the tool requests. *)
Definition requests_message (m : AssistantMessage) : Message :=
  mkMessage assistant [Lit (default "" (am_content m))] (Some (am_tool_calls m)) None.

Definition tool_message (tool_call : ToolCallRequest) (r : json) : Message :=
  mkMessage tool [Dumps r] None (Some (tc_id tool_call)).

Definition final_message (final_response : string) : Message :=
  mkMessage assistant [Lit final_response] None None.

(** [x or fallback] for an optional string. *)
Definition or_else (x : option string) (fallback : string) : string :=
  match x with
  | Some s => if String.eqb s "" then fallback else s
  | None => fallback
  end.

Definition unknown_tool (function_name : string) : json :=
  JObj [("error", JStr ("Unknown tool: " ++ function_name))].

(** The registry lookup of the loop: the handler's result, or the error
    value for a name that is not registered. *)
Definition dispatch (function_name : string) (function_args : kwargs) : Eff json :=
  match assoc function_name TOOL_FUNCTIONS with
  | Some handler => handler function_args
  | None => ret (unknown_tool function_name)
  end.

(** The body of [for tool_call in assistant_message.tool_calls]. *)
Definition execute_tool_call (cid : string) (tool_call : ToolCallRequest)
    (tool_calls_made : list ToolCall) : App (list ToolCall) :=
  let function_name := tc_name tool_call in
  match tc_arguments tool_call with
  | Malformed => raise JSONDecodeError
  | NotAMapping type_name =>
      match assoc function_name TOOL_FUNCTIONS with
      | Some _ =>
          raise (TypeError ("tools." ++ function_name
                            ++ "() argument after ** must be a mapping, not " ++ type_name))
      | None => raise ValidationError
      end
  | Mapping function_args =>
      r <- in_world (dispatch function_name function_args) ;;
      let made := (tool_calls_made ++ [mkToolCall function_name function_args r])%list in
      ok <- append_message cid (tool_message tool_call r) ;;
      ret made
  end.

Fixpoint execute_tool_calls (cid : string) (calls : list ToolCallRequest)
    (tool_calls_made : list ToolCall) : App (list ToolCall) :=
  match calls with
  | [] => ret tool_calls_made
  | tool_call :: rest =>
      made <- execute_tool_call cid tool_call tool_calls_made ;;
      execute_tool_calls cid rest made
  end.

(** [while iteration < max_iterations], with [remaining] the iterations
    left. *)
Fixpoint agentic_loop (remaining : nat) (client : Client) (cid : string)
    (tool_calls_made : list ToolCall) : App ChatResponse :=
  match remaining with
  | O => ret (mkChatResponse LIMIT_REPLY cid tool_calls_made)
  | S remaining' =>
      assistant_message <- create client cid ;;
      match am_tool_calls assistant_message with
      | _ :: _ =>
          ok <- append_message cid (requests_message assistant_message) ;;
          made <- execute_tool_calls cid (am_tool_calls assistant_message) tool_calls_made ;;
          agentic_loop remaining' client cid made
      | [] =>
          let final_response := or_else (am_content assistant_message) FALLBACK_REPLY in
          ok <- append_message cid (final_message final_response) ;;
          ret (mkChatResponse final_response cid tool_calls_made)
      end
  end.

(** [request.conversation_id or f"conv_{...}"] *)
Definition resolve_conversation_id (request : ChatRequest) : App string :=
  match req_conversation_id request with
  | Some cid =>
      if String.eqb cid "" then now <- in_world utcnow ;; ret ("conv_" ++ strftime now)
      else ret cid
  | None => now <- in_world utcnow ;; ret ("conv_" ++ strftime now)
  end.

(** [if conversation_id not in conversations: conversations[...] = [system]] *)
Definition ensure_conversation (cid : string) : App unit :=
  fun st =>
    match conversations st !! cid with
    | Some _ => (Returned tt, st)
    | None =>
        (Returned tt,
         mkApp (<[cid := [system_message]]> (conversations st)) (world st) (completions st))
    end.

Definition add_context (cid : string) (context : option (list (string * json))) : App unit :=
  match context with
  | Some (kv :: rest) =>
      extend_last_content cid
        [Lit (newline ++ newline ++ "Environment context: ");
         DumpsIndented (JObj (kv :: rest))]
  | _ => ret tt
  end.

(** The message of the turn: the user's text, with the rendering of a
    non-empty context concatenated onto it. *)
Definition turn_message (request : ChatRequest) : Message :=
  match req_context request with
  | Some (kv :: rest) =>
      mkMessage user
        [Lit (req_message request);
         Lit (newline ++ newline ++ "Environment context: ");
         DumpsIndented (JObj (kv :: rest))] None None
  | _ => user_message (req_message request)
  end.

(** The start of the [try] block: the conversation is found or created
    and the user's message is appended. *)
Definition begin_turn (request : ChatRequest) : App string :=
  cid <- resolve_conversation_id request ;;
  ok <- ensure_conversation cid ;;
  ok <- append_message cid (user_message (req_message request)) ;;
  ok <- add_context cid (req_context request) ;;
  ret cid.

(** The [try] block of [chat]. *)
Definition chat_body (get_openai_client : Outcome Client) (request : ChatRequest)
  : App ChatResponse :=
  cid <- begin_turn request ;;
  client <- lift get_openai_client ;;
  agentic_loop max_iterations client cid [].

Inductive HttpResult : Type :=
| Ok200 (body : ChatResponse)
| HTTPException (status_code : Z) (detail : exn).

(** [except Exception as e: raise HTTPException(status_code=500, ...)] *)
Definition to_http (o : Outcome ChatResponse) : HttpResult :=
  match o with
  | Returned r => Ok200 r
  | Raised e => HTTPException 500 e
  end.

(** [POST /chat] *)
Definition chat (get_openai_client : Outcome Client) (request : ChatRequest)
    (st : AppState) : HttpResult * AppState :=
  match chat_body get_openai_client request st with
  | (o, st') => (to_http o, st')
  end.

(** * Vocabulary of the statements *)

(** Largest key first. *)
Definition desc {A : Type} (key : A -> Z) (a b : A) : Prop := key b <= key a.

Definition tick_rand (w : World) : World :=
  mkWorld (rand_src w) (S (rand_pos w)) (clock_src w) (clock_pos w).

Definition tick_clock (w : World) : World :=
  mkWorld (rand_src w) (rand_pos w) (clock_src w) (S (clock_pos w)).

(** [d["a"]["b"]...] *)
Fixpoint jpath (ks : list string) (j : json) : option json :=
  match ks with
  | [] => Some j
  | k :: rest => match jget k j with
                 | Some j' => jpath rest j'
                 | None => None
                 end
  end.

#[global] Instance pyval_eq_dec : EqDecision pyval.
Proof. solve_decision. Defined.

(** An incident of [get_service_health]: identifier, title, status and
    description, a start time and dated updates. *)
Definition incident_ok (i : json) : Prop :=
  has_key "incident_id" i = true /\ has_key "title" i = true
  /\ has_key "status" i = true /\ has_key "description" i = true
  /\ (exists t, jget "start_time" i = Some (JTime t))
  /\ (exists ups, jget "updates" i = Some (JList ups)
                  /\ Forall (fun u => exists t, jget "time" u = Some (JTime t)) ups).

Definition in_inventory (resource_name : pyval) : bool :=
  match find_resource resource_name with Some _ => true | None => false end.

Definition sample_world : World :=
  mkWorld (fun n => Z.of_nat n * 7919) 0 (fun _ => 1762214400000000%N) 0.

(** The handler's count field is the length of the list it comes with. *)
Definition count_consistent (count_key list_key : string) (r : json) : Prop :=
  exists l, jget list_key r = Some (JList l)
            /\ jget count_key r = Some (JInt (Z.of_nat (length l))).

(** A window that reaches back before year 1 makes the timestamp
    computation overflow: two million days back from November 2025. *)
Definition far_back_world : World :=
  mkWorld (fun _ => 2000000) 0 (fun _ => 1762214400000000%N) 0.

(** [st'] is [st] with [tail] appended to the conversation [cid], which
    held [msgs], and with [k] more completion requests; the other
    conversations are as they were. *)
Definition grows (cid : string) (msgs tail : list Message) (k : nat)
    (st st' : AppState) : Prop :=
  conversations st' !! cid = Some (msgs ++ tail)%list
  /\ (forall other, other <> cid -> conversations st' !! other = conversations st !! other)
  /\ completions st' = (completions st + k)%nat.

(** The keyword arguments of a request whose arguments are a mapping. *)
Definition args_of (tool_call : ToolCallRequest) : kwargs :=
  match tc_arguments tool_call with
  | Mapping function_args => function_args
  | _ => []
  end.

Definition trace_entry (tool_call : ToolCallRequest) (r : json) : ToolCall :=
  mkToolCall (tc_name tool_call) (args_of tool_call) r.

(** One block of a turn: the assistant's message with the requests, then
    one tool message per answered request, in the order of the requests,
    each with the identifier of its request. *)
Definition block (m : AssistantMessage) (results : list json) : list Message :=
  requests_message m :: zip_with tool_message (am_tool_calls m) results.

(** What a run of the loop with [n] iterations left appends to the
    conversation, by its outcome. *)
Inductive run_shape : nat -> Outcome ChatResponse -> list Message -> Prop :=
| run_exhausted (cid : string) (made : list ToolCall) :
    run_shape 0 (Returned (mkChatResponse LIMIT_REPLY cid made)) []
| run_answered (n : nat) (m : AssistantMessage) (cid : string) (made : list ToolCall) :
    am_tool_calls m = [] ->
    run_shape (S n)
      (Returned (mkChatResponse (or_else (am_content m) FALLBACK_REPLY) cid made))
      [final_message (or_else (am_content m) FALLBACK_REPLY)]
| run_block (n : nat) (m : AssistantMessage) (results : list json)
    (out : Outcome ChatResponse) (rest : list Message) :
    am_tool_calls m <> [] ->
    length results = length (am_tool_calls m) ->
    run_shape n out rest ->
    run_shape (S n) out (block m results ++ rest)
| run_model_failure (n : nat) (e : exn) :
    run_shape (S n) (Raised e) []
| run_tool_failure (n : nat) (m : AssistantMessage) (results : list json) (e : exn) :
    am_tool_calls m <> [] ->
    (length results < length (am_tool_calls m))%nat ->
    run_shape (S n) (Raised e) (block m results).

(** The identifier minted at the next reading of the clock. *)
Definition minted_id (st : AppState) : string :=
  "conv_" ++ strftime (clock_src (world st) (clock_pos (world st))).

(** The conversation a turn starts from: the stored one, or a new one
    with the system message alone. *)
Definition base_conversation (cid : string) (st : AppState) : list Message :=
  match conversations st !! cid with
  | Some msgs => msgs
  | None => [system_message]
  end.

(** Sample states, requests and models. *)
Definition empty_app : AppState := mkApp ∅ sample_world 0.

(** A request for [get_service_health] with a keyword the handler does not
    have. *)
Definition misnamed_call : ToolCallRequest :=
  mkRequest "a" "get_service_health"
    (Mapping [("service_name", VStr "Azure SQL"); ("region", VStr "eastus")]).

Definition dependencies_call : ToolCallRequest :=
  mkRequest "b" "check_dependencies" (Mapping [("resource_name", VStr "web-app-prod")]).


(** A model that answers at once. *)
Definition answering_client : Client :=
  fun _ _ => Returned (mkAssistant (Some "done") []).

(** A model that asks for the two tools first and answers next. *)
Definition two_tools_client : Client :=
  fun n _ =>
    match n with
    | O => Returned (mkAssistant None [misnamed_call; dependencies_call])
    | _ => Returned (mkAssistant (Some "done") [])
    end.

(** A model that asks for a tool at every request. *)
Definition insisting_client : Client :=
  fun _ _ => Returned (mkAssistant None [dependencies_call]).

(** A model that asks for one tool first and for three next, the second of
    them with a keyword its handler does not have. *)
Definition second_round_client : Client :=
  fun n _ =>
    match n with
    | O => Returned (mkAssistant None [dependencies_call])
    | _ => Returned (mkAssistant None [dependencies_call; misnamed_call; dependencies_call])
    end.



Definition ticket_request : ChatRequest :=
  mkChatRequest "sql is slow" (Some "ticket-42") None.


(** A request that cannot fail: its arguments are a mapping and the
    dispatch returns in every world. *)
Definition never_fails (tool_call : ToolCallRequest) : Prop :=
  exists function_args,
    tc_arguments tool_call = Mapping function_args
    /\ forall w, exists r w', dispatch (tc_name tool_call) function_args w = (Returned r, w').

(** The requests [calls] are answered one after the other from the world
    [w]: each has a mapping for its arguments and its dispatch returns.  The
    results are [results], in the order of the requests, and the world is left
    as [w']. *)
Inductive answered : list ToolCallRequest -> World -> list json -> World -> Prop :=
| answered_nil (w : World) : answered [] w [] w
| answered_cons (tool_call : ToolCallRequest) (function_args : kwargs)
    (rest : list ToolCallRequest) (w w1 w' : World) (r : json) (results : list json) :
    tc_arguments tool_call = Mapping function_args ->
    dispatch (tc_name tool_call) function_args w = (Returned r, w1) ->
    answered rest w1 results w' ->
    answered (tool_call :: rest) w (r :: results) w'.

(** The request fails in the world [w] with the exception [e] and leaves
    the world as [w']: its arguments do not parse, or they parse to a value
    that is no mapping, or its handler raises. *)
Definition fails (tool_call : ToolCallRequest) (w : World) (e : exn) (w' : World) : Prop :=
  match tc_arguments tool_call with
  | Malformed => e = JSONDecodeError /\ w' = w
  | NotAMapping type_name =>
      e = match assoc (tc_name tool_call) TOOL_FUNCTIONS with
          | Some _ =>
              TypeError ("tools." ++ tc_name tool_call
                         ++ "() argument after ** must be a mapping, not " ++ type_name)
          | None => ValidationError
          end
      /\ w' = w
  | Mapping function_args => dispatch (tc_name tool_call) function_args w = (Raised e, w')
  end.

(** The trace entries of one iteration: one per request, in the order of
    the requests. *)
Definition batch_of (round : AssistantMessage * list json) : list ToolCall :=
  zip_with trace_entry (am_tool_calls (fst round)) (snd round).

(** Complete iterations, by what the model and the tools do: from [st] the
    model is asked once for each round and replies with the message of the
    round, which carries requests; the requests are answered with the results
    of the round; the block of the round is appended to the conversation.
    The state after the last round is [st']. *)
Inductive iterates (client : Client) (cid : string)
  : list (AssistantMessage * list json) -> AppState -> AppState -> Prop :=
| iterates_nil (st : AppState) : iterates client cid [] st st
| iterates_cons (st st' : AppState) (msgs : list Message) (m : AssistantMessage)
    (results : list json) (w1 : World) (rounds : list (AssistantMessage * list json)) :
    conversations st !! cid = Some msgs ->
    client (completions st) msgs = Returned m ->
    am_tool_calls m <> [] ->
    answered (am_tool_calls m) (world st) results w1 ->
    iterates client cid rounds
      (mkApp (<[cid := (msgs ++ block m results)%list]> (conversations st)) w1
             (S (completions st))) st' ->
    iterates client cid ((m, results) :: rounds) st st'.

(** * The other endpoints and the vocabulary of the further properties *)

(** [m] returns from [s], and its result and final state satisfy [Q]. *)
Definition yields {S A : Type} (m : M S A) (s : S) (Q : A -> S -> Prop) : Prop :=
  exists a s', m s = (Returned a, s') /\ Q a s'.

(** What each block of [_generate_metrics] holds when it is selected. *)
Definition cpu_block (resource_name : pyval) (block : list (string * json)) : Prop :=
  exists jitter, -5 <= jitter <= 10
    /\ let base_cpu := if eq_str resource_name "web-app-prod" then 85 else 35 in
       block = [("cpu",
                 JObj [("current_percent", JInt (base_cpu + jitter));
                       ("average_percent", JInt (base_cpu - 5));
                       ("max_percent", JInt (base_cpu + 15));
                       ("min_percent", JInt (base_cpu - 20));
                       ("status", JStr (if eq_str resource_name "web-app-prod"
                                        then "critical" else "healthy"))])].

Definition requests_block (resource_name : pyval) (block : list (string * json)) : Prop :=
  exists total successful failed rate,
    50000 <= total <= 150000 /\ 45000 <= successful <= 145000
    /\ (if eq_str resource_name "api-gateway" then 100 <= failed <= 2000
        else 10 <= failed <= 100)
    /\ 50 <= rate <= 200
    /\ block = [("requests",
                 JObj [("total", JInt total); ("successful", JInt successful);
                       ("failed", JInt failed); ("rate_per_second", JInt rate)])].

Definition errors_block (resource_name : pyval) (block : list (string * json)) : Prop :=
  exists error_count,
    (if eq_str resource_name "api-gateway" then 500 <= error_count <= 2000
     else 5 <= error_count <= 50)
    /\ block = [("errors",
                 JObj [("total", JInt error_count);
                       ("rate_percent", jfloat_mul error_count (1 # 10));
                       ("by_type",
                        JObj [("500", int_of_product error_count 4 10);
                              ("502", int_of_product error_count 3 10);
                              ("503", int_of_product error_count 2 10);
                              ("timeout", int_of_product error_count 1 10)]);
                       ("status", JStr (if eq_str resource_name "api-gateway"
                                        then "critical" else "healthy"))])].

(** A block that is selected holds [P]; one that is not is absent. *)
Definition selected (metric_type : pyval) (name : string)
    (P : list (string * json) -> Prop) (block : list (string * json)) : Prop :=
  if in_strs metric_type [name; "all"]
  then P block /\ exists v, block = [(name, v)]
  else block = [].

(** An entry drawn from the templates [T] at a reading [now] of the clock. *)
Definition drawn_from (T : list (string * string * string)) (now : N) (e : LogEntry) : Prop :=
  (exists source, log_source e = VStr source
                  /\ In (log_message e, log_severity e, source) T)
  /\ Z.of_N now - 360 * US_PER_MINUTE <= log_timestamp e <= Z.of_N now - US_PER_MINUTE.


Definition property (type description : string) (more : list (string * json)) : json :=
  JObj ([("type", JStr type); ("description", JStr description)] ++ more).

Definition function_tool (name description : string)
    (properties : list (string * json)) (required : list string) : json :=
  JObj [("type", JStr "function");
        ("function",
         JObj [("name", JStr name);
               ("description", JStr description);
               ("parameters",
                JObj [("type", JStr "object");
                      ("properties", JObj properties);
                      ("required", strs required)])])].

Definition TOOL_DEFINITIONS : list json :=
  [ function_tool "get_system_config"
      "Get the configuration of an Azure resource including SKU, settings, and deployment details"
      [("resource_name",
        property "string"
          "Name of the Azure resource (e.g., 'web-app-prod', 'sql-db-main')" []);
       ("resource_type",
        property "string"
          "Type of resource (e.g., 'container_app', 'sql_database', 'storage_account', 'api_management')"
          [("enum", strs ["container_app"; "sql_database"; "storage_account";
                          "api_management"; "app_service"; "cosmos_db"; "redis_cache";
                          "key_vault"])])]
      ["resource_name"; "resource_type"];
    function_tool "get_system_metrics"
      "Get performance metrics for an Azure resource including CPU, memory, latency, request counts, and errors"
      [("resource_name", property "string" "Name of the Azure resource" []);
       ("metric_type",
        property "string" "Type of metrics to retrieve"
          [("enum", strs ["cpu"; "memory"; "latency"; "requests"; "errors"; "all"])]);
       ("time_range",
        property "string" "Time range for metrics"
          [("enum", strs ["1h"; "6h"; "24h"; "7d"]); ("default", JStr "1h")])]
      ["resource_name"];
    function_tool "get_recent_logs"
      "Get recent log entries from an Azure resource, optionally filtered by severity"
      [("resource_name", property "string" "Name of the Azure resource" []);
       ("severity",
        property "string" "Filter by log severity"
          [("enum", strs ["all"; "error"; "warning"; "info"]); ("default", JStr "all")]);
       ("limit",
        property "integer" "Maximum number of log entries to return"
          [("default", JInt 20)])]
      ["resource_name"];
    function_tool "get_service_health"
      "Check Azure service health for known issues or outages in a region"
      [("service",
        property "string"
          "Azure service to check (e.g., 'Azure SQL', 'Container Apps', 'Storage')"
          [("enum", strs ["Azure SQL"; "Container Apps"; "Storage"; "Cosmos DB";
                          "API Management"; "App Service"; "Azure OpenAI"; "Redis Cache"])]);
       ("region",
        property "string" "Azure region (e.g., 'eastus', 'westus2')"
          [("default", JStr "eastus")])]
      ["service"];
    function_tool "get_recent_changes"
      "Get recent deployments, configuration changes, and updates for a resource"
      [("resource_name", property "string" "Name of the Azure resource" []);
       ("days",
        property "integer" "Number of days to look back" [("default", JInt 7)])]
      ["resource_name"];
    function_tool "check_dependencies"
      "List the upstream and downstream dependencies of a resource"
      [("resource_name", property "string" "Name of the Azure resource" [])]
      ["resource_name"];
    function_tool "get_resource_details"
      "Get comprehensive details about an Azure resource including its resource group, subscription, and tags"
      [("resource_name", property "string" "Name of the Azure resource" [])]
      ["resource_name"] ].

(** [GET /tools] *)
Definition list_tools : json :=
  JObj [("tools", JList TOOL_DEFINITIONS);
        ("description",
         JStr "These tools are available for the IT Admin agent to gather information about systems.")].

(** The parts of a tool definition. *)
Definition definition_name (td : json) : string :=
  match jpath ["function"; "name"] td with
  | Some (JStr name) => name
  | _ => ""
  end.

Definition definition_properties (td : json) : list (string * json) :=
  match jpath ["function"; "parameters"; "properties"] td with
  | Some (JObj properties) => properties
  | _ => []
  end.

Definition definition_required (td : json) : list string :=
  match jpath ["function"; "parameters"; "required"] td with
  | Some (JList names) =>
      flat_map (fun j => match j with JStr s => [s] | _ => [] end) names
  | _ => []
  end.

(** A value has the JSON type a property declares. *)
Definition has_declared_type (v : pyval) (p : json) : bool :=
  match v, jget "type" p with
  | VStr _, Some (JStr "string") => true
  | VInt _, Some (JStr "integer") => true
  | _, _ => false
  end.

(** Every keyword is a property of the definition. *)
Definition keys_advertised (td : json) (function_args : kwargs) : bool :=
  forallb (fun kv => match assoc (fst kv) (definition_properties td) with
                     | Some _ => true
                     | None => false
                     end) function_args.

(** Every required property is given. *)
Definition required_given (td : json) (function_args : kwargs) : bool :=
  forallb (fun name => match assoc name function_args with
                       | Some _ => true
                       | None => false
                       end) (definition_required td).

(** Every value has the type its property declares. *)
Definition values_typed (td : json) (function_args : kwargs) : bool :=
  forallb (fun kv => match assoc (fst kv) (definition_properties td) with
                     | Some p => has_declared_type (snd kv) p
                     | None => true
                     end) function_args.

(** The arguments follow the advertised schema of the tool (enumerations
    apart). *)
Definition conforms (td : json) (function_args : kwargs) : bool :=
  keys_advertised td function_args && required_given td function_args
  && values_typed td function_args.

(** The answer of an endpoint that returns JSON. *)
Inductive Reply : Type :=
| Reply200 (body : json)
| Reply404 (detail : string)
| Reply500 (detail : exn).

Definition kwargs_json (function_args : kwargs) : json :=
  JObj (map (fun kv => (fst kv, to_json (snd kv))) function_args).

(** [POST /tools/{tool_name}] *)
Definition call_tool_directly (tool_name : string) (function_args : kwargs) (w : World)
  : Reply * World :=
  match assoc tool_name TOOL_FUNCTIONS with
  | None => (Reply404 ("Tool '" ++ tool_name ++ "' not found"), w)
  | Some handler =>
      match handler function_args w with
      | (Returned r, w') =>
          (Reply200 (JObj [("tool", JStr tool_name);
                           ("arguments", kwargs_json function_args);
                           ("result", r)]), w')
      | (Raised e, w') => (Reply500 e, w')
      end
  end.

(** [DELETE /conversations/{conversation_id}] *)
Definition clear_conversation (cid : string) (st : AppState) : Reply * AppState :=
  match conversations st !! cid with
  | Some _ =>
      (Reply200 (JObj [("status", JStr "deleted"); ("conversation_id", JStr cid)]),
       mkApp (delete cid (conversations st)) (world st) (completions st))
  | None => (Reply404 "Conversation not found", st)
  end.

(** The results that the tool messages of [msgs] carry, in order. *)
Definition tool_results (msgs : list Message) : list json :=
  flat_map (fun m => match msg_role m, msg_content m with
                     | tool, [Dumps r] => [r]
                     | _, _ => []
                     end) msgs.

(** The tool names that the assistant messages of [msgs] request, in order. *)
Definition requested_names (msgs : list Message) : list string :=
  flat_map (fun m => match msg_tool_calls m with
                     | Some calls => map tc_name calls
                     | None => []
                     end) msgs.

(** The identifier a request runs under. *)
Definition resolved_id (request : ChatRequest) (st : AppState) : string :=
  match req_conversation_id request with
  | Some given => if String.eqb given "" then minted_id st else given
  | None => minted_id st
  end.

Definition follow_up_request : ChatRequest :=
  mkChatRequest "and the gateway?" (Some "ticket-42") None.


(** * Properties of the tools *)

Lemma eq_str_true (v : pyval) (s : string) : eq_str v s = true <-> v = VStr s.
Proof.
  destruct v as [s'|z]; simpl.
  - rewrite String.eqb_eq. split; [intros ->; reflexivity | intros [= ->]; reflexivity].
  - split; [discriminate | discriminate].
Qed.

Lemma bind_returned {S A B : Type} (m : M S A) (f : A -> M S B) (w w' : S) (a : A) :
  m w = (Returned a, w') -> bind m f w = f a w'.
Proof. intros H. unfold bind. rewrite H. reflexivity. Qed.

Lemma bind_raised {S A B : Type} (m : M S A) (f : A -> M S B) (w w' : S) (e : exn) :
  m w = (Raised e, w') -> bind m f w = (Raised e, w').
Proof. intros H. unfold bind. rewrite H. reflexivity. Qed.

Lemma utcnow_eq (w : World) :
  utcnow w = (Returned (clock_src w (clock_pos w)), tick_clock w).
Proof. reflexivity. Qed.

Lemma randint_spec (a b : Z) (w : World) :
  a <= b ->
  exists x, randint a b w = (Returned x, tick_rand w) /\ a <= x <= b.
Proof.
  intros Hab. unfold randint.
  destruct (Z.ltb_spec b a) as [Hlt|_]; [lia|].
  exists (a + rand_src w (rand_pos w) mod (b - a + 1)). split.
  - reflexivity.
  - pose proof (Z.mod_pos_bound (rand_src w (rand_pos w)) (b - a + 1)). lia.
Qed.

(** Every value of the range is the outcome of some draw. *)
Lemma randint_onto (a b x : Z) (w : World) :
  a <= x <= b -> rand_src w (rand_pos w) = x - a ->
  randint a b w = (Returned x, tick_rand w).
Proof.
  intros Hx Hd. unfold randint.
  destruct (Z.ltb_spec b a) as [Hlt|_]; [lia|].
  unfold bind, draw, ret. rewrite Hd.
  rewrite Z.mod_small by lia. f_equal. f_equal. lia.
Qed.

Lemma ago_returns (now : N) (d h m : Z) :
  0 <= d -> 0 <= h -> 0 <= m ->
  d * US_PER_DAY + h * US_PER_HOUR + m * US_PER_MINUTE <= 719162 * US_PER_DAY ->
  ago now d h m
  = Returned (Z.of_N now - (d * US_PER_DAY + h * US_PER_HOUR + m * US_PER_MINUTE)).
Proof.
  intros Hd Hh Hm Hle. unfold ago, timedelta, datetime_sub, DATETIME_MIN.
  set (us := d * US_PER_DAY + h * US_PER_HOUR + m * US_PER_MINUTE) in *.
  assert (Hday : 0 < US_PER_DAY) by (unfold US_PER_DAY, US_PER_HOUR, US_PER_MINUTE; lia).
  assert (Hus : 0 <= us).
  { unfold us, US_PER_DAY, US_PER_HOUR, US_PER_MINUTE in *. lia. }
  assert (Hq : 0 <= us / US_PER_DAY <= 719162).
  { split; [apply Z.div_pos; lia|].
    apply Z.div_le_upper_bound; lia. }
  destruct (Z.ltb_spec 2147483647 (us / US_PER_DAY)) as [Hbig|_]; [lia|].
  destruct (Z.ltb_spec (us / US_PER_DAY) (-2147483648)) as [Hbig|_]; [lia|].
  destruct (Z.ltb_spec 999999999 (Z.abs (us / US_PER_DAY))) as [Hbig|_]; [lia|].
  cbn [orb].
  destruct (Z.ltb_spec (Z.of_N now - us) (- (719162 * US_PER_DAY))) as [Hlow|_]; [lia|].
  reflexivity.
Qed.

(** C6. [get_service_health] answers "degraded" with a non-empty list of
    incidents, each with its identifier, title, status, description and
    timestamps, exactly for the pair ("Azure SQL", "eastus"); for every other
    pair it answers "healthy" with an empty list of incidents.  It returns in
    both cases, whatever the clock reads. *)
Theorem service_health_special_case (service region : pyval) (w : World) :
  exists r w',
    get_service_health service region w = (Returned r, w')
    /\ if decide ((service, region) = (VStr "Azure SQL", VStr "eastus"))
       then jget "status" r = Some (JStr "degraded")
            /\ exists incidents,
                 jget "active_incidents" r = Some (JList incidents)
                 /\ incidents <> [] /\ Forall incident_ok incidents
       else jget "status" r = Some (JStr "healthy")
            /\ jget "active_incidents" r = Some (JList []).
Proof.
  unfold get_service_health.
  destruct (eq_str service "Azure SQL" && eq_str region "eastus") eqn:Hpair.
  - apply andb_true_iff in Hpair as [Hs Hr].
    apply eq_str_true in Hs. apply eq_str_true in Hr. subst service region.
    rewrite (bind_returned _ _ _ _ _ (utcnow_eq w)).
    unfold lift at 1. unfold bind at 1.
    rewrite (ago_returns _ 0 2 0) by (unfold US_PER_DAY, US_PER_HOUR, US_PER_MINUTE; lia).
    rewrite (bind_returned _ _ _ _ _ (utcnow_eq (tick_clock w))).
    unfold lift at 1. unfold bind at 1.
    rewrite (ago_returns _ 0 0 30) by (unfold US_PER_DAY, US_PER_HOUR, US_PER_MINUTE; lia).
    eexists. eexists. split; [reflexivity|].
    destruct (decide _) as [_|Hne]; [|congruence].
    split; [reflexivity|].
    eexists. split; [reflexivity|]. split; [discriminate|].
    constructor; [|constructor].
    unfold incident_ok, has_key. simpl.
    repeat split; try reflexivity.
    + eexists. reflexivity.
    + eexists. split; [reflexivity|].
      constructor; [|constructor]. eexists. reflexivity.
  - eexists. eexists. split; [reflexivity|].
    destruct (decide _) as [Heq|_].
    + injection Heq as -> ->. discriminate Hpair.
    + split; reflexivity.
Qed.

(** C7. Whatever the random jitter, the CPU block of [web-app-prod] reads at
    least 75 percent with status "warning" or "critical", and the latency
    block of [sql-db-main] has a median of at least 500 ms with status
    "critical". *)
Theorem metric_thresholds (time_range : pyval) (w : World) :
  (exists r w' p s,
     get_system_metrics (VStr "web-app-prod") (VStr "cpu") time_range w = (Returned r, w')
     /\ jpath ["data"; "cpu"; "current_percent"] r = Some (JInt p) /\ 75 <= p
     /\ jpath ["data"; "cpu"; "status"] r = Some (JStr s)
     /\ (s = "warning" \/ s = "critical"))
  /\ (exists r w' p,
        get_system_metrics (VStr "sql-db-main") (VStr "latency") time_range w = (Returned r, w')
        /\ jpath ["data"; "latency"; "p50_ms"] r = Some (JInt p) /\ 500 <= p
        /\ jpath ["data"; "latency"; "status"] r = Some (JStr "critical")).
Proof.
  split.
  - unfold get_system_metrics, _generate_metrics.
    rewrite (bind_returned _ _ _ _ _ (utcnow_eq w)).
    cbn [in_strs existsb eq_str String.eqb Ascii.eqb Bool.eqb orb andb].
    destruct (randint_spec (-5) 10 (tick_clock w)) as (x & Hx & Hrange); [lia|].
    unfold bind at 1. unfold bind at 1. rewrite Hx. cbn [ret].
    eexists. eexists. exists (85 + x). exists "critical".
    split; [reflexivity|].
    split; [reflexivity|]. split; [lia|]. split; [reflexivity|]. right. reflexivity.
  - unfold get_system_metrics, _generate_metrics.
    rewrite (bind_returned _ _ _ _ _ (utcnow_eq w)).
    eexists. eexists. exists 850.
    split; [reflexivity|].
    split; [reflexivity|]. split; [lia|]. reflexivity.
Qed.

(** C8. For a resource name absent from the inventory each handler keeps its
    own policy: [get_system_config] answers a generic configuration with
    status "running" and sku "Standard" and no error; [check_dependencies]
    answers empty upstream and downstream lists and no error;
    [get_resource_details] answers with an error and a suggestion. *)
Theorem unknown_resource_policy (resource_name resource_type : pyval) (w : World) :
  in_inventory resource_name = false ->
  (let r := get_system_config resource_name resource_type in
   has_key "error" r = false
   /\ jpath ["configuration"; "status"] r = Some (JStr "running")
   /\ jpath ["configuration"; "sku"] r = Some (JStr "Standard"))
  /\ (let r := check_dependencies resource_name in
      jget "upstream_dependencies" r = Some (JList [])
      /\ jget "downstream_dependencies" r = Some (JList [])
      /\ has_key "error" r = false)
  /\ (exists r,
        get_resource_details resource_name w = (Returned r, w)
        /\ has_key "error" r = true /\ has_key "suggestion" r = true).
Proof.
  unfold in_inventory, get_system_config, check_dependencies, get_resource_details.
  destruct (find_resource resource_name); [discriminate|]. intros _.
  split; [|split].
  - repeat split; reflexivity.
  - repeat split; reflexivity.
  - eexists. split; [reflexivity|]. split; reflexivity.
Qed.

Lemma unknown_resource_policy_witness :
  in_inventory (VStr "no-such-resource") = false
  /\ jpath ["configuration"; "status"]
       (get_system_config (VStr "no-such-resource") (VStr "container_app"))
     = Some (JStr "running").
Proof.
  split; [reflexivity|].
  apply (unknown_resource_policy (VStr "no-such-resource") (VStr "container_app")
           (mkWorld (fun _ => 0) 0 (fun _ => 0%N) 0)).
  reflexivity.
Defined.

(** ** Sorting, slicing and loops *)

Section Sorting.
Context {A : Type} (key : A -> Z).

Lemma insert_desc_Forall (P : A -> Prop) (x : A) (l : list A) :
  P x -> Forall P l -> Forall P (insert_desc key x l).
Proof.
  intros Hx Hl. induction Hl as [|y rest Hy Hrest IH]; simpl.
  - constructor; [assumption|constructor].
  - destruct (key y <=? key x); repeat constructor; assumption.
Qed.

Lemma insert_desc_length (x : A) (l : list A) :
  length (insert_desc key x l) = S (length l).
Proof.
  induction l as [|y rest IH]; simpl; [reflexivity|].
  destruct (key y <=? key x); simpl; [reflexivity | now rewrite IH].
Qed.

Lemma insert_desc_sorted (x : A) (l : list A) :
  StronglySorted (desc key) l -> StronglySorted (desc key) (insert_desc key x l).
Proof.
  intros Hl. induction Hl as [|y rest Hrest IH Hy]; simpl.
  - constructor; constructor.
  - destruct (Z.leb_spec (key y) (key x)) as [Hle|Hgt].
    + constructor; [constructor; assumption|].
      constructor; [exact Hle|].
      eapply Forall_impl; [exact Hy|].
      unfold desc. intros z Hz. lia.
    + constructor; [exact IH|].
      apply insert_desc_Forall; [unfold desc; lia | exact Hy].
Qed.

Lemma sort_desc_sorted (l : list A) : StronglySorted (desc key) (sort_desc key l).
Proof.
  induction l as [|x rest IH]; simpl; [constructor|].
  apply insert_desc_sorted. exact IH.
Qed.

Lemma sort_desc_length (l : list A) : length (sort_desc key l) = length l.
Proof.
  induction l as [|x rest IH]; simpl; [reflexivity|].
  rewrite insert_desc_length. now rewrite IH.
Qed.

Lemma firstn_sorted (n : nat) (l : list A) :
  StronglySorted (desc key) l -> StronglySorted (desc key) (firstn n l).
Proof.
  intros Hl. revert n. induction Hl as [|y rest Hrest IH Hy]; intros [|n]; simpl;
    try constructor.
  - apply IH.
  - clear -Hy. revert n. induction Hy as [|z rest Hz Hrest IH]; intros [|n]; simpl;
      constructor; [exact Hz | apply IH].
Qed.

Lemma slice_to_sorted (stop : Z) (l : list A) :
  StronglySorted (desc key) l -> StronglySorted (desc key) (slice_to stop l).
Proof. intros Hl. unfold slice_to. destruct (stop <? 0); now apply firstn_sorted. Qed.

Lemma slice_to_length (stop : Z) (l : list A) :
  0 <= stop -> Z.of_nat (length (slice_to stop l)) <= stop.
Proof.
  intros Hstop. unfold slice_to.
  destruct (Z.ltb_spec stop 0) as [Hneg|_]; [lia|].
  rewrite length_firstn. lia.
Qed.

End Sorting.

Lemma for_each_spec {A B : Type} (body : A -> Eff B) (P : B -> Prop) (l : list A) :
  (forall i, In i l -> forall w, exists x w', body i w = (Returned x, w') /\ P x) ->
  forall w, exists xs w',
    for_each body l w = (Returned xs, w') /\ length xs = length l /\ Forall P xs.
Proof.
  induction l as [|i rest IH]; intros Hbody w; simpl.
  - exists [], w. repeat split. constructor.
  - destruct (Hbody i (or_introl eq_refl) w) as (x & w1 & Hx & HP).
    destruct (IH (fun j Hj => Hbody j (or_intror Hj)) w1) as (xs & w2 & Hxs & Hlen & HPs).
    exists (x :: xs), w2. split.
    + rewrite (bind_returned _ _ _ _ _ Hx). rewrite (bind_returned _ _ _ _ _ Hxs).
      reflexivity.
    + split; [simpl; now rewrite Hlen | constructor; assumption].
Qed.

Lemma choice_returns {A : Type} (x : A) (rest : list A) (w : World) :
  exists y, choice (x :: rest) w = (Returned y, tick_rand w).
Proof. eexists. reflexivity. Qed.

Lemma minutes_ago_returns (now : N) (minutes : Z) :
  1 <= minutes <= 360 -> exists t, ago now 0 0 minutes = Returned t.
Proof.
  intros Hm. eexists. apply ago_returns; try lia.
  unfold US_PER_DAY, US_PER_HOUR, US_PER_MINUTE. lia.
Qed.

Lemma generate_logs_returns (resource_name severity : pyval) (limit : Z) (w : World) :
  exists logs w',
    _generate_logs resource_name severity (VInt limit) w = (Returned logs, w')
    /\ StronglySorted (desc log_timestamp) logs
    /\ (0 <= limit -> Z.of_nat (length logs) <= limit).
Proof.
  unfold _generate_logs.
  rewrite (bind_returned _ _ _ _ _ (utcnow_eq w)).
  set (now := clock_src w (clock_pos w)).
  set (templates := templates_for resource_name severity).
  unfold py_min, lift at 1. unfold bind at 1. unfold for_range.
  set (body := fun _ : nat => _).
  assert (Hbody : forall i, In i (seq 0 (Z.to_nat (Z.min limit (Z.of_nat (length templates) * 3)))) ->
                  forall w0, exists x w1, body i w0 = (Returned x, w1) /\ True).
  { intros i _ w0. unfold body.
    assert (Htemplate : exists t w1,
               match templates with
               | [] => ret ("No logs available", "info", resource_name)
               | _ :: _ => t <- choice templates ;; ret (fst (fst t), snd (fst t), VStr (snd t))
               end w0 = (Returned t, w1)).
    { destruct templates as [|t0 rest]; [eexists; eexists; reflexivity|].
      destruct (choice_returns t0 rest w0) as (y & Hy).
      eexists. eexists. rewrite (bind_returned _ _ _ _ _ Hy). reflexivity. }
    destruct Htemplate as (t & w1 & Ht).
    rewrite (bind_returned _ _ _ _ _ Ht).
    destruct (randint_spec 1 360 w1) as (minutes & Hmin & Hrange); [lia|].
    rewrite (bind_returned _ _ _ _ _ Hmin).
    destruct (minutes_ago_returns now minutes Hrange) as (ts & Hts).
    unfold lift at 1. unfold bind at 1. rewrite Hts.
    destruct (randint_spec 10000 99999 (tick_rand w1)) as (corr & Hcorr & _); [lia|].
    rewrite (bind_returned _ _ _ _ _ Hcorr).
    eexists. eexists. split; [reflexivity | exact I]. }
  destruct (for_each_spec body (fun _ => True) _ Hbody (tick_clock w))
    as (logs & w' & Hlogs & Hlen & _).
  rewrite (bind_returned _ _ _ _ _ Hlogs).
  eexists. eexists. split; [reflexivity|]. split.
  - apply slice_to_sorted. apply sort_desc_sorted.
  - intros Hlimit. apply slice_to_length. exact Hlimit.
Qed.



Lemma generate_changes_returns (resource_name : pyval) (days : Z) (w : World) :
  days <= 719161 ->
  exists changes w', _generate_changes resource_name (VInt days) w = (Returned changes, w').
Proof.
  intros Hdays. unfold _generate_changes.
  rewrite (bind_returned _ _ _ _ _ (utcnow_eq w)).
  set (now := clock_src w (clock_pos w)).
  unfold py_min, lift at 1. unfold bind at 1. unfold for_range.
  set (body := fun _ : nat => _).
  set (n := Z.to_nat (Z.min days (Z.of_nat (length change_templates)))).
  assert (Hbody : forall i, In i (seq 0 n) ->
                  forall w0, exists x w1, body i w0 = (Returned x, w1) /\ True).
  { intros i Hi w0. apply in_seq in Hi. unfold n in Hi. simpl length in Hi.
    assert (Hpos : 1 <= days) by lia.
    assert (Hi5 : (i < 5)%nat) by lia.
    unfold body.
    destruct (nth_error change_templates i) as [template|] eqn:Hnth.
    2:{ apply nth_error_None in Hnth. simpl in Hnth. lia. }
    unfold randint_upto.
    destruct (randint_spec 0 days w0) as (d & Hd & Hdr); [lia|].
    rewrite (bind_returned _ _ _ _ _ Hd).
    destruct (randint_spec 0 23 (tick_rand w0)) as (h & Hh & Hhr); [lia|].
    rewrite (bind_returned _ _ _ _ _ Hh).
    unfold lift at 1. unfold bind at 1.
    rewrite (ago_returns now d h 0); try lia.
    - eexists. eexists. split; [reflexivity | exact I].
    - unfold US_PER_DAY, US_PER_HOUR, US_PER_MINUTE. lia. }
  destruct (for_each_spec body (fun _ => True) _ Hbody (tick_clock w))
    as (changes & w' & Hchanges & _).
  rewrite (bind_returned _ _ _ _ _ Hchanges).
  eexists. eexists. reflexivity.
Qed.

(** C10, as stated, at [days = 2000000]: [get_recent_changes] raises and
    returns no count at all. *)
Lemma recent_changes_overflow :
  fst (get_recent_changes (VStr "web-app-prod") (VInt 2000000) far_back_world)
  = Raised (OverflowError "date value out of range").
Proof. vm_compute. reflexivity. Qed.

(** C10, amended.  [get_recent_logs] returns, for every integer limit, a
    count equal to the length of its list of logs; [get_recent_changes]
    returns a change count equal to the length of its list of changes
    whenever it returns, which it does for every window of at most 719161
    days; [check_dependencies] returns, for a resource of the inventory,
    upstream and downstream counts equal to the lengths of the two lists. *)
Theorem count_fields_consistent
    (resource_name severity : pyval) (limit days : Z) (w : World) :
  (exists r w',
     get_recent_logs resource_name severity (VInt limit) w = (Returned r, w')
     /\ count_consistent "count" "logs" r)
  /\ match fst (get_recent_changes resource_name (VInt days) w) with
     | Returned r => count_consistent "change_count" "changes" r
     | Raised _ => 719161 < days
     end
  /\ (if in_inventory resource_name
      then count_consistent "upstream_count" "upstream_dependencies"
             (check_dependencies resource_name)
           /\ count_consistent "downstream_count" "downstream_dependencies"
                (check_dependencies resource_name)
      else True).
Proof.
  split; [|split].
  - destruct (generate_logs_returns resource_name severity limit w)
      as (logs & w' & Hgen & _).
    eexists. exists w'. unfold get_recent_logs.
    rewrite (bind_returned _ _ _ _ _ Hgen). split; [reflexivity|].
    exists (map log_json logs). split; [reflexivity|].
    simpl. unfold jlen. now rewrite length_map.
  - unfold get_recent_changes, bind.
    destruct (_generate_changes resource_name (VInt days) w) as [[changes|e] w'] eqn:Hgen;
      simpl.
    + exists (map change_json changes). split; [reflexivity|].
      simpl. unfold jlen. now rewrite length_map.
    + destruct (Z.le_gt_cases days 719161) as [Hle|Hgt]; [|lia].
      destruct (generate_changes_returns resource_name days w Hle) as (c & w1 & Hc).
      congruence.
  - unfold in_inventory, check_dependencies.
    destruct (find_resource resource_name) as [resource|]; [|exact I].
    split.
    + exists (map JStr (res_upstream resource)). split; [reflexivity|].
      simpl. unfold jlen. now rewrite length_map.
    + exists (map JStr (res_downstream resource)). split; [reflexivity|].
      simpl. unfold jlen. now rewrite length_map.
Qed.

Example strftime_epoch : strftime 0 = "19700101000000000000".
Proof. reflexivity. Qed.

Example strftime_leap_day : strftime 951782400123456 = "20000229000000123456".
Proof. reflexivity. Qed.

(** * Properties of the chat endpoint *)

Lemma grows_refl (cid : string) (msgs : list Message) (st : AppState) :
  conversations st !! cid = Some msgs -> grows cid msgs [] 0 st st.
Proof.
  intros H. unfold grows. rewrite app_nil_r. repeat split; [exact H | lia].
Qed.

Lemma grows_trans (cid : string) (msgs t1 t2 : list Message) (k1 k2 : nat)
    (st st1 st2 : AppState) :
  grows cid msgs t1 k1 st st1 -> grows cid (msgs ++ t1) t2 k2 st1 st2 ->
  grows cid msgs (t1 ++ t2) (k1 + k2) st st2.
Proof.
  intros (H1 & O1 & C1) (H2 & O2 & C2). unfold grows.
  rewrite app_assoc. repeat split.
  - exact H2.
  - intros other Hne. rewrite (O2 other Hne). apply O1. exact Hne.
  - lia.
Qed.

Lemma append_message_grows (cid : string) (m : Message) (msgs : list Message)
    (st : AppState) :
  conversations st !! cid = Some msgs ->
  exists st', append_message cid m st = (Returned tt, st') /\ grows cid msgs [m] 0 st st'
              /\ world st' = world st.
Proof.
  intros H. unfold append_message. rewrite H. eexists. split; [reflexivity|].
  unfold grows. simpl. repeat split.
  - apply lookup_insert_eq.
  - intros other Hne. apply lookup_insert_ne. congruence.
  - lia.
Qed.

Lemma execute_tool_call_spec (cid : string) (tool_call : ToolCallRequest)
    (made : list ToolCall) (msgs : list Message) (st : AppState) :
  conversations st !! cid = Some msgs ->
  match execute_tool_call cid tool_call made st with
  | (Returned made', st') =>
      exists r, made' = (made ++ [trace_entry tool_call r])%list
                /\ grows cid msgs [tool_message tool_call r] 0 st st'
  | (Raised e, st') => grows cid msgs [] 0 st st'
  end.
Proof.
  intros H. unfold execute_tool_call, trace_entry, args_of.
  destruct (tc_arguments tool_call) as [|type_name|function_args].
  - simpl. apply grows_refl. exact H.
  - destruct (assoc (tc_name tool_call) TOOL_FUNCTIONS); simpl; apply grows_refl; exact H.
  - unfold bind at 1. unfold in_world.
    destruct (dispatch (tc_name tool_call) function_args (world st)) as [[r|e] w'].
    + set (st1 := mkApp (conversations st) w' (completions st)).
      destruct (append_message_grows cid (tool_message tool_call r) msgs st1 H)
        as (st' & Happ & Hgrow & _).
      rewrite (bind_returned _ _ _ _ _ Happ). simpl.
      exists r. split; [reflexivity|]. exact Hgrow.
    + unfold grows. simpl. rewrite app_nil_r. repeat split; [exact H | lia].
Qed.

Lemma execute_tool_calls_spec (cid : string) (calls : list ToolCallRequest) :
  forall (made : list ToolCall) (msgs : list Message) (st : AppState),
  conversations st !! cid = Some msgs ->
  exists results,
    grows cid msgs (zip_with tool_message calls results) 0 st
          (snd (execute_tool_calls cid calls made st))
    /\ match fst (execute_tool_calls cid calls made st) with
       | Returned made' =>
           length results = length calls
           /\ made' = (made ++ zip_with trace_entry calls results)%list
       | Raised e => (length results < length calls)%nat
       end.
Proof.
  induction calls as [|tool_call rest IH]; intros made msgs st H.
  - exists []. simpl. split; [apply grows_refl; exact H|].
    split; [reflexivity | now rewrite app_nil_r].
  - simpl. unfold bind.
    pose proof (execute_tool_call_spec cid tool_call made msgs st H) as Hone.
    destruct (execute_tool_call cid tool_call made st) as [[made1|e] st1].
    + destruct Hone as (r & -> & Hgrow).
      destruct (IH (made ++ [trace_entry tool_call r])%list
                   (msgs ++ [tool_message tool_call r])%list st1 (proj1 Hgrow))
        as (results & Hrest & Hout).
      exists (r :: results). split.
      * simpl zip_with.
        change (tool_message tool_call r :: zip_with tool_message rest results)
          with ([tool_message tool_call r] ++ zip_with tool_message rest results)%list.
        apply (grows_trans _ _ _ _ 0 0 _ _ _ Hgrow Hrest).
      * destruct (fst (execute_tool_calls cid rest _ st1)) as [made'|e'].
        -- destruct Hout as (Hlen & ->). split; [simpl; now rewrite Hlen|].
           simpl. now rewrite <- app_assoc.
        -- simpl. lia.
    + exists []. simpl. split; [exact Hone | lia].
Qed.

Lemma create_spec (client : Client) (cid : string) (msgs : list Message) (st : AppState) :
  conversations st !! cid = Some msgs ->
  create client cid st
  = (client (completions st) msgs,
     mkApp (conversations st) (world st) (S (completions st))).
Proof. intros H. unfold create. rewrite H. reflexivity. Qed.

Lemma agentic_loop_spec (client : Client) (cid : string) (n : nat) :
  forall (made : list ToolCall) (msgs : list Message) (st st' : AppState)
         (out : Outcome ChatResponse),
  conversations st !! cid = Some msgs ->
  agentic_loop n client cid made st = (out, st') ->
  exists tail k,
    (k <= n)%nat /\ grows cid msgs tail k st st' /\ run_shape n out tail.
Proof.
  induction n as [|n IH]; intros made msgs st st' out H Hrun.
  - simpl in Hrun. injection Hrun as <- <-.
    exists [], 0%nat. split; [lia|]. split; [apply grows_refl; exact H | constructor].
  - simpl in Hrun. unfold bind at 1 in Hrun. rewrite (create_spec client cid msgs st H) in Hrun.
    set (st0 := mkApp (conversations st) (world st) (S (completions st))) in *.
    assert (H0 : conversations st0 !! cid = Some msgs) by exact H.
    assert (G0 : grows cid msgs [] 1 st st0).
    { unfold grows. rewrite app_nil_r. repeat split; [exact H | simpl; lia]. }
    destruct (client (completions st) msgs) as [m|e].
    2:{ injection Hrun as <- <-.
        exists [], 1%nat. split; [lia|]. split; [exact G0 | constructor]. }
    destruct (am_tool_calls m) as [|call calls] eqn:Hcalls.
    + destruct (append_message_grows cid
                  (final_message (or_else (am_content m) FALLBACK_REPLY)) msgs st0 H0)
        as (st1 & Happ & Hgrow & _).
      rewrite (bind_returned _ _ _ _ _ Happ) in Hrun. injection Hrun as <- <-.
      exists [final_message (or_else (am_content m) FALLBACK_REPLY)], 1%nat.
      split; [lia|]. split.
      * apply (grows_trans cid msgs [] _ 1 0 st st0 st1 G0). rewrite app_nil_r. exact Hgrow.
      * constructor. exact Hcalls.
    + destruct (append_message_grows cid (requests_message m) msgs st0 H0)
        as (st1 & Happ & Hgrow & _).
      rewrite (bind_returned _ _ _ _ _ Happ) in Hrun.
      destruct (execute_tool_calls_spec cid (call :: calls) made
                  (msgs ++ [requests_message m])%list st1 (proj1 Hgrow))
        as (results & Hexec & Hout).
      unfold bind in Hrun.
      destruct (execute_tool_calls cid (call :: calls) made st1) as [[made'|e] st2].
      * cbn [fst snd] in Hexec, Hout. destruct Hout as (Hlen & _).
        assert (G2 : grows cid msgs (block m results) 1 st st2).
        { unfold block. rewrite Hcalls.
          change (requests_message m :: zip_with tool_message (call :: calls) results)
            with ([requests_message m] ++ zip_with tool_message (call :: calls) results)%list.
          apply (grows_trans _ _ _ _ 1 0 _ _ _
                   (grows_trans _ _ _ _ 1 0 _ _ _ G0
                      ltac:(rewrite app_nil_r; exact Hgrow))).
          exact Hexec. }
        destruct (IH made' (msgs ++ block m results)%list st2 st' out (proj1 G2) Hrun)
          as (tail & k & Hk & Hrest & Hshape).
        exists (block m results ++ tail)%list, (1 + k)%nat.
        split; [lia|]. split.
        -- apply (grows_trans _ _ _ _ _ _ _ _ _ G2 Hrest).
        -- apply run_block; [rewrite Hcalls; discriminate | now rewrite Hcalls | exact Hshape].
      * cbn [fst snd] in Hexec, Hout. injection Hrun as <- <-.
        exists (block m results), 1%nat. split; [lia|]. split.
        -- unfold block. rewrite Hcalls.
           change (requests_message m :: zip_with tool_message (call :: calls) results)
             with ([requests_message m] ++ zip_with tool_message (call :: calls) results)%list.
           apply (grows_trans _ _ _ _ 1 0 _ _ _
                    (grows_trans _ _ _ _ 1 0 _ _ _ G0
                       ltac:(rewrite app_nil_r; exact Hgrow))).
           exact Hexec.
        -- apply run_tool_failure; [rewrite Hcalls; discriminate | now rewrite Hcalls].
Qed.

Lemma resolve_conversation_id_spec (request : ChatRequest) (st : AppState) :
  exists st1,
    resolve_conversation_id request st
    = (Returned (match req_conversation_id request with
                 | Some given => if String.eqb given "" then minted_id st else given
                 | None => minted_id st
                 end), st1)
    /\ conversations st1 = conversations st /\ completions st1 = completions st.
Proof.
  unfold resolve_conversation_id.
  destruct (req_conversation_id request) as [given|];
    [destruct (String.eqb given "")|]; eexists; (split; [reflexivity|]); split; reflexivity.
Qed.

Lemma map_last_snoc {A : Type} (f : A -> A) (l : list A) (x : A) :
  map_last f (l ++ [x]) = (l ++ [f x])%list.
Proof.
  induction l as [|y rest IH]; [reflexivity|].
  simpl. rewrite IH. destruct (rest ++ [x])%list eqn:E; [|reflexivity].
  destruct rest; discriminate E.
Qed.

Lemma add_context_spec (cid : string) (request : ChatRequest) (msgs : list Message)
    (st : AppState) :
  conversations st !! cid = Some (msgs ++ [user_message (req_message request)])%list ->
  exists st1,
    add_context cid (req_context request) st = (Returned tt, st1)
    /\ conversations st1 !! cid = Some (msgs ++ [turn_message request])%list
    /\ (forall other, other <> cid -> conversations st1 !! other = conversations st !! other)
    /\ completions st1 = completions st.
Proof.
  intros H. unfold add_context, turn_message.
  destruct (req_context request) as [[|kv rest]|].
  - exists st. repeat split; exact H.
  - unfold extend_last_content. rewrite H.
    destruct (msgs ++ [user_message (req_message request)])%list eqn:E.
    { destruct msgs; discriminate E. }
    rewrite <- E. eexists. split; [reflexivity|]. simpl. repeat split.
    + rewrite lookup_insert_eq. rewrite map_last_snoc. reflexivity.
    + intros other Hne. apply lookup_insert_ne. congruence.
  - exists st. repeat split; exact H.
Qed.

Lemma begin_turn_spec (request : ChatRequest) (st : AppState) :
  exists cid st1,
    begin_turn request st = (Returned cid, st1)
    /\ cid = match req_conversation_id request with
             | Some given => if String.eqb given "" then minted_id st else given
             | None => minted_id st
             end
    /\ conversations st1 !! cid
       = Some (base_conversation cid st ++ [turn_message request])%list
    /\ (forall other, other <> cid -> conversations st1 !! other = conversations st !! other)
    /\ completions st1 = completions st.
Proof.
  destruct (resolve_conversation_id_spec request st) as (sa & Hres & Hca & Hna).
  set (cid := match req_conversation_id request with
              | Some given => if String.eqb given "" then minted_id st else given
              | None => minted_id st
              end) in *.
  assert (Hens : exists sb,
             ensure_conversation cid sa = (Returned tt, sb)
             /\ conversations sb !! cid = Some (base_conversation cid st)
             /\ (forall other, other <> cid ->
                   conversations sb !! other = conversations st !! other)
             /\ completions sb = completions st).
  { unfold ensure_conversation, base_conversation. rewrite Hca.
    destruct (conversations st !! cid) as [msgs|] eqn:Hlook.
    - exists sa. rewrite Hca. repeat split; [exact Hlook | exact Hna].
    - eexists. split; [reflexivity|]. simpl. repeat split.
      + apply lookup_insert_eq.
      + intros other Hne. rewrite lookup_insert_ne by congruence. reflexivity.
      + exact Hna. }
  destruct Hens as (sb & Hens & Hb & Hob & Hnb).
  destruct (append_message_grows cid (user_message (req_message request)) _ sb Hb)
    as (sc & Happ & (Hc & Hoc & Hnc) & _).
  destruct (add_context_spec cid request _ sc Hc) as (sd & Hctx & Hd & Hod & Hnd).
  exists cid, sd. unfold begin_turn.
  rewrite (bind_returned _ _ _ _ _ Hres). rewrite (bind_returned _ _ _ _ _ Hens).
  rewrite (bind_returned _ _ _ _ _ Happ). rewrite (bind_returned _ _ _ _ _ Hctx).
  split; [reflexivity|]. split; [reflexivity|]. split; [exact Hd|]. split.
  - intros other Hne. rewrite (Hod other Hne), (Hoc other Hne). apply Hob. exact Hne.
  - lia.
Qed.

(** ** Conversation resolution *)

(** C3, as stated, for an identifier that is given and not in the store:
    no identifier is minted, the turn runs under the caller's own, and the
    clock is not read. *)
Lemma unknown_given_id_is_kept :
  conversations empty_app !! "ticket-42" = None
  /\ fst (chat (Returned answering_client) ticket_request empty_app)
     = Ok200 (mkChatResponse "done" "ticket-42" [])
  /\ clock_pos (world (snd (chat (Returned answering_client) ticket_request empty_app)))
     = clock_pos (world empty_app)
  /\ conversations (snd (chat (Returned answering_client) ticket_request empty_app))
       !! "ticket-42"
     = Some [system_message; user_message "sql is slow"; final_message "done"].
Proof. vm_compute. repeat split. Qed.

(** C3, amended.  The turn runs under the given identifier whenever one is
    given and not empty, in the store or not, and under a freshly minted
    [conv_<timestamp>] only when none is given.  A conversation stored under
    that identifier is reused; otherwise one is created under it with the
    system message alone.  The user's message, with any context, is appended
    after, and no other conversation changes. *)
Theorem conversation_resolution (request : ChatRequest) (st : AppState) :
  exists cid st1,
    begin_turn request st = (Returned cid, st1)
    /\ cid = match req_conversation_id request with
             | Some given => if String.eqb given "" then minted_id st else given
             | None => minted_id st
             end
    /\ conversations st1 !! cid
       = Some (match conversations st !! cid with
               | Some msgs => msgs
               | None => [system_message]
               end ++ [turn_message request])%list
    /\ (forall other, other <> cid -> conversations st1 !! other = conversations st !! other)
    /\ completions st1 = completions st.
Proof. exact (begin_turn_spec request st). Qed.

(** ** Unknown tools *)



(** ** Iterations of the loop *)

Lemma chat_body_eq (get_openai_client : Outcome Client) (request : ChatRequest)
    (st : AppState) (cid : string) (st1 : AppState) :
  begin_turn request st = (Returned cid, st1) ->
  chat_body get_openai_client request st
  = match get_openai_client with
    | Returned client => agentic_loop max_iterations client cid [] st1
    | Raised e => (Raised e, st1)
    end.
Proof.
  intros Hbegin. unfold chat_body. rewrite (bind_returned _ _ _ _ _ Hbegin).
  destruct get_openai_client; reflexivity.
Qed.

Lemma answered_length (calls : list ToolCallRequest) (w : World) (results : list json)
    (w' : World) :
  answered calls w results w' -> length results = length calls.
Proof. induction 1; simpl; congruence. Qed.


(** One iteration whose reply carries requests: the assistant's message is
    appended and the batch is executed. *)
Lemma loop_step (client : Client) (cid : string) (n : nat) (made : list ToolCall)
    (st : AppState) (msgs : list Message) (m : AssistantMessage) :
  conversations st !! cid = Some msgs ->
  client (completions st) msgs = Returned m ->
  am_tool_calls m <> [] ->
  agentic_loop (S n) client cid made st
  = bind (execute_tool_calls cid (am_tool_calls m) made)
         (fun made' => agentic_loop n client cid made')
         (mkApp (<[cid := (msgs ++ [requests_message m])%list]> (conversations st))
                (world st) (S (completions st))).
Proof.
  intros Hlook Hreply Hcalls. simpl. unfold bind at 1.
  rewrite (create_spec client cid msgs st Hlook), Hreply.
  destruct (am_tool_calls m) as [|call calls] eqn:E; [congruence|].
  unfold bind at 1. unfold append_message at 1. simpl conversations. rewrite Hlook.
  reflexivity.
Qed.

(** Requests that are answered execute to their results. *)
Lemma execute_answered (cid : string) (calls : list ToolCallRequest) (w : World)
    (results : list json) (w' : World) :
  answered calls w results w' ->
  forall (made : list ToolCall) (msgs : list Message) (c : gmap string (list Message))
         (k : nat),
  c !! cid = Some msgs ->
  execute_tool_calls cid calls made (mkApp c w k)
  = (Returned (made ++ zip_with trace_entry calls results)%list,
     mkApp (<[cid := (msgs ++ zip_with tool_message calls results)%list]> c) w' k).
Proof.
  induction 1 as [w|tool_call function_args rest w w1 w' r results Hargs Hdisp _ IH];
    intros made msgs c k Hlook.
  - simpl. rewrite !app_nil_r. rewrite (insert_id c cid msgs Hlook). reflexivity.
  - assert (Hone : execute_tool_call cid tool_call made (mkApp c w k)
                   = (Returned (made ++ [trace_entry tool_call r])%list,
                      mkApp (<[cid := (msgs ++ [tool_message tool_call r])%list]> c) w1 k)).
    { unfold execute_tool_call, trace_entry, args_of. rewrite Hargs.
      unfold bind at 1. unfold in_world. simpl world. rewrite Hdisp.
      unfold bind, append_message. simpl. rewrite Hlook. reflexivity. }
    simpl execute_tool_calls. rewrite (bind_returned _ _ _ _ _ Hone).
    rewrite (IH _ (msgs ++ [tool_message tool_call r])%list _ k (lookup_insert_eq _ _ _)).
    rewrite insert_insert_eq. simpl zip_with. rewrite <- !app_assoc. reflexivity.
Qed.

(** A request that fails raises, and nothing is appended for it. *)
Lemma failing_request (cid : string) (tool_call : ToolCallRequest) (w : World) (e : exn)
    (w' : World) (made : list ToolCall) (c : gmap string (list Message)) (k : nat) :
  fails tool_call w e w' ->
  execute_tool_call cid tool_call made (mkApp c w k) = (Raised e, mkApp c w' k).
Proof.
  unfold fails, execute_tool_call. destruct (tc_arguments tool_call) as [|type_name|function_args].
  - intros (-> & ->). reflexivity.
  - intros (-> & ->). destruct (assoc (tc_name tool_call) TOOL_FUNCTIONS); reflexivity.
  - intros Hdisp. unfold bind, in_world. simpl world. rewrite Hdisp. reflexivity.
Qed.

(** A batch with a failing request raises at that request: the requests
    before it are answered, the later ones are not executed. *)
Lemma failing_batch (cid : string) (before : list ToolCallRequest) (w : World)
    (results : list json) (w1 : World) :
  answered before w results w1 ->
  forall (failing : ToolCallRequest) (after : list ToolCallRequest) (e : exn) (w2 : World)
         (made : list ToolCall) (msgs : list Message) (c : gmap string (list Message))
         (k : nat),
  fails failing w1 e w2 ->
  c !! cid = Some msgs ->
  execute_tool_calls cid (before ++ failing :: after) made (mkApp c w k)
  = (Raised e,
     mkApp (<[cid := (msgs ++ zip_with tool_message before results)%list]> c) w2 k).
Proof.
  induction 1 as [w|tool_call function_args rest w w1 w' r results Hargs Hdisp _ IH];
    intros failing after e w2 made msgs c k Hfail Hlook.
  - simpl. rewrite (bind_raised _ _ _ _ _ (failing_request cid failing w e w2 made c k Hfail)).
    rewrite app_nil_r, (insert_id c cid msgs Hlook). reflexivity.
  - assert (Hone : execute_tool_call cid tool_call made (mkApp c w k)
                   = (Returned (made ++ [trace_entry tool_call r])%list,
                      mkApp (<[cid := (msgs ++ [tool_message tool_call r])%list]> c) w1 k)).
    { unfold execute_tool_call, trace_entry, args_of. rewrite Hargs.
      unfold bind at 1. unfold in_world. simpl world. rewrite Hdisp.
      unfold bind, append_message. simpl. rewrite Hlook. reflexivity. }
    simpl app. simpl execute_tool_calls. rewrite (bind_returned _ _ _ _ _ Hone).
    rewrite (IH failing after e w2 _ (msgs ++ [tool_message tool_call r])%list _ k Hfail
               (lookup_insert_eq _ _ _)).
    rewrite insert_insert_eq. simpl zip_with. rewrite <- !app_assoc. reflexivity.
Qed.

(** Complete iterations are iterations of the loop. *)
Lemma iterates_loop (client : Client) (cid : string)
    (rounds : list (AssistantMessage * list json)) (st st' : AppState) :
  iterates client cid rounds st st' ->
  forall (n : nat) (made : list ToolCall),
  agentic_loop (length rounds + n) client cid made st
  = agentic_loop n client cid (made ++ concat (map batch_of rounds))%list st'.
Proof.
  induction 1 as [st|st st' msgs m results w1 rounds Hlook Hreply Hcalls Hans _ IH];
    intros n made.
  - simpl. rewrite app_nil_r. reflexivity.
  - simpl length. simpl Nat.add. rewrite (loop_step client cid _ made st msgs m Hlook Hreply Hcalls).
    unfold bind.
    rewrite (execute_answered cid _ _ _ _ Hans made (msgs ++ [requests_message m])%list _ _
               (lookup_insert_eq _ _ _)).
    rewrite insert_insert_eq, <- app_assoc.
    change ([requests_message m] ++ zip_with tool_message (am_tool_calls m) results)%list
      with (block m results).
    rewrite IH. simpl. unfold batch_of at 2. simpl. rewrite <- app_assoc. reflexivity.
Qed.

Lemma iterates_completions (client : Client) (cid : string)
    (rounds : list (AssistantMessage * list json)) (st st' : AppState) :
  iterates client cid rounds st st' ->
  completions st' = (completions st + length rounds)%nat.
Proof.
  induction 1 as [st|st st' msgs m results w1 rounds _ _ _ _ _ IH]; simpl; [lia|].
  rewrite IH. simpl. lia.
Qed.


(** An iteration with a failing request ends the loop. *)
Lemma failing_iteration (n : nat) (client : Client) (cid : string) (made : list ToolCall)
    (sta : AppState) (msgs : list Message) (m : AssistantMessage)
    (before after : list ToolCallRequest) (failing : ToolCallRequest)
    (results : list json) (w1 w2 : World) (e : exn) :
  conversations sta !! cid = Some msgs ->
  client (completions sta) msgs = Returned m ->
  am_tool_calls m = (before ++ failing :: after)%list ->
  answered before (world sta) results w1 ->
  fails failing w1 e w2 ->
  agentic_loop (S n) client cid made sta
  = (Raised e,
     mkApp (<[cid := (msgs ++ requests_message m :: zip_with tool_message before results)%list]>
              (conversations sta)) w2 (S (completions sta))).
Proof.
  intros Hlook Hreply Hcalls Hans Hfail.
  assert (Hne : am_tool_calls m <> []).
  { rewrite Hcalls. destruct before; discriminate. }
  rewrite (loop_step client cid n made sta msgs m Hlook Hreply Hne). rewrite Hcalls.
  rewrite (bind_raised _ _ _ _ _
             (failing_batch cid before _ results w1 Hans failing after e w2 made
                (msgs ++ [requests_message m])%list _ _ Hfail (lookup_insert_eq _ _ _))).
  rewrite insert_insert_eq, <- app_assoc. reflexivity.
Qed.

(** A turn in which a request fails after complete iterations. *)
Lemma failing_turn (client : Client) (request : ChatRequest) (st st1 sta : AppState)
    (cid : string) (rounds : list (AssistantMessage * list json)) (msgs : list Message)
    (m : AssistantMessage) (before after : list ToolCallRequest)
    (failing : ToolCallRequest) (results : list json) (w1 w2 : World) (e : exn) :
  begin_turn request st = (Returned cid, st1) ->
  iterates client cid rounds st1 sta ->
  (length rounds < max_iterations)%nat ->
  conversations sta !! cid = Some msgs ->
  client (completions sta) msgs = Returned m ->
  am_tool_calls m = (before ++ failing :: after)%list ->
  answered before (world sta) results w1 ->
  fails failing w1 e w2 ->
  chat (Returned client) request st
  = (HTTPException 500 e,
     mkApp (<[cid := (msgs ++ requests_message m :: zip_with tool_message before results)%list]>
              (conversations sta)) w2 (S (completions sta))).
Proof.
  intros Hbegin Hrounds Hless Hlook Hreply Hcalls Hans Hfail.
  unfold chat. rewrite (chat_body_eq _ _ _ _ _ Hbegin).
  replace max_iterations
    with (length rounds + S (max_iterations - length rounds - 1))%nat by lia.
  rewrite (iterates_loop client cid rounds st1 sta Hrounds).
  rewrite (failing_iteration _ client cid _ sta msgs m before after failing results w1 w2 e
             Hlook Hreply Hcalls Hans Hfail).
  reflexivity.
Qed.

(** For a registered tool the outcome of a request is the handler's. *)
Lemma registered_request (cid : string) (tool_call : ToolCallRequest)
    (function_args : kwargs) (handler : kwargs -> Eff json) (made : list ToolCall)
    (s : AppState) (msgs : list Message) :
  tc_arguments tool_call = Mapping function_args ->
  assoc (tc_name tool_call) TOOL_FUNCTIONS = Some handler ->
  conversations s !! cid = Some msgs ->
  execute_tool_call cid tool_call made s
  = match handler function_args (world s) with
    | (Returned r, w') =>
        (Returned (made ++ [mkToolCall (tc_name tool_call) function_args r])%list,
         mkApp (<[cid := (msgs ++ [tool_message tool_call r])%list]> (conversations s))
               w' (completions s))
    | (Raised e, w') => (Raised e, mkApp (conversations s) w' (completions s))
    end.
Proof.
  intros Hargs Hreg Hlook. unfold execute_tool_call. rewrite Hargs.
  unfold bind at 1. unfold in_world, dispatch. rewrite Hreg.
  destruct (handler function_args (world s)) as [[r|e] w']; [|reflexivity].
  unfold bind, append_message. simpl. rewrite Hlook. reflexivity.
Qed.



(** ** Failing tool calls *)

(** C1, as stated, for a batch of two requests whose first handler raises
    on an unexpected keyword: the turn ends with an internal error, no tool
    message is appended for either request, and the model is not called
    again. *)
Lemma failing_tool_aborts_turn :
  fst (chat (Returned two_tools_client) ticket_request empty_app)
  = HTTPException 500
      (TypeError "get_service_health() got an unexpected keyword argument 'service_name'")
  /\ conversations (snd (chat (Returned two_tools_client) ticket_request empty_app))
       !! "ticket-42"
     = Some [system_message; user_message "sql is slow";
             requests_message (mkAssistant None [misnamed_call; dependencies_call])]
  /\ completions (snd (chat (Returned two_tools_client) ticket_request empty_app)) = 1%nat.
Proof. vm_compute. repeat split. Qed.

(** C1, amended.  A turn makes complete iterations and then, with
    iterations left, the model asks for a batch in which the requests before
    one are answered and that one fails: its arguments do not parse, or are no
    mapping, or its handler raises.  Nothing is converted to an error value:
    [chat] answers 500 with the exception of the failing request.  The
    conversation keeps what the complete iterations appended, the assistant's
    message of the failing iteration and the tool messages of the requests
    before the failing one; the failing request and the later ones get no
    tool message, the later ones are not executed, and the model is not asked
    again.  For a registered tool the outcome of a request is the handler's
    own: its result becomes the tool message and the trace entry, its
    exception is raised as it is. *)
Theorem tool_failure_ends_turn
    (client : Client) (request : ChatRequest) (st st1 sta : AppState) (cid : string)
    (rounds : list (AssistantMessage * list json)) (msgs : list Message)
    (m : AssistantMessage) (before after : list ToolCallRequest)
    (failing : ToolCallRequest) (results : list json) (w1 w2 : World) (e : exn) :
  begin_turn request st = (Returned cid, st1) ->
  iterates client cid rounds st1 sta ->
  (length rounds < max_iterations)%nat ->
  conversations sta !! cid = Some msgs ->
  client (completions sta) msgs = Returned m ->
  am_tool_calls m = (before ++ failing :: after)%list ->
  answered before (world sta) results w1 ->
  fails failing w1 e w2 ->
  chat (Returned client) request st
  = (HTTPException 500 e,
     mkApp (<[cid := (msgs ++ requests_message m :: zip_with tool_message before results)%list]>
              (conversations sta)) w2 (S (completions sta)))
  /\ completions sta = (completions st + length rounds)%nat
  /\ (forall (tool_call : ToolCallRequest) (function_args : kwargs)
             (handler : kwargs -> Eff json) (made : list ToolCall) (s : AppState)
             (msgs0 : list Message),
        tc_arguments tool_call = Mapping function_args ->
        assoc (tc_name tool_call) TOOL_FUNCTIONS = Some handler ->
        conversations s !! cid = Some msgs0 ->
        execute_tool_call cid tool_call made s
        = match handler function_args (world s) with
          | (Returned r, w') =>
              (Returned (made ++ [mkToolCall (tc_name tool_call) function_args r])%list,
               mkApp (<[cid := (msgs0 ++ [tool_message tool_call r])%list]> (conversations s))
                     w' (completions s))
          | (Raised e0, w') => (Raised e0, mkApp (conversations s) w' (completions s))
          end).
Proof.
  intros Hbegin Hrounds Hless Hlook Hreply Hcalls Hans Hfail.
  split; [|split].
  - exact (failing_turn client request st st1 sta cid rounds msgs m before after failing
             results w1 w2 e Hbegin Hrounds Hless Hlook Hreply Hcalls Hans Hfail).
  - rewrite (iterates_completions _ _ _ _ _ Hrounds).
    destruct (begin_turn_spec request st) as (cid' & st1' & Hbegin' & _ & _ & _ & Hcount).
    rewrite Hbegin in Hbegin'. injection Hbegin' as <- <-. rewrite Hcount. reflexivity.
  - intros tool_call function_args handler made s msgs0.
    apply registered_request.
Qed.

Lemma tool_failure_ends_turn_witness :
  fst (chat (Returned second_round_client) ticket_request empty_app)
  = HTTPException 500
      (TypeError "get_service_health() got an unexpected keyword argument 'service_name'")
  /\ conversations (snd (chat (Returned second_round_client) ticket_request empty_app))
       !! "ticket-42"
     = Some [system_message; user_message "sql is slow";
             requests_message (mkAssistant None [dependencies_call]);
             tool_message dependencies_call (check_dependencies (VStr "web-app-prod"));
             requests_message
               (mkAssistant None [dependencies_call; misnamed_call; dependencies_call]);
             tool_message dependencies_call (check_dependencies (VStr "web-app-prod"))]
  /\ completions (snd (chat (Returned second_round_client) ticket_request empty_app)) = 2%nat.
Proof.
  pose (st1 := mkApp {[ "ticket-42" := [system_message; user_message "sql is slow"] ]}
                     sample_world 0).
  pose (m0 := mkAssistant None [dependencies_call]).
  pose (r0 := check_dependencies (VStr "web-app-prod")).
  pose (sta := mkApp (<[ "ticket-42" := ([system_message; user_message "sql is slow"]
                                          ++ block m0 [r0])%list ]> (conversations st1))
                     sample_world 1).
  assert (Hbegin : begin_turn ticket_request empty_app = (Returned "ticket-42", st1))
    by (vm_compute; reflexivity).
  assert (Hans : answered [dependencies_call] sample_world [r0] sample_world).
  { eapply answered_cons; [reflexivity | reflexivity | apply answered_nil]. }
  assert (Hrounds : iterates second_round_client "ticket-42" [(m0, [r0])] st1 sta).
  { eapply (iterates_cons second_round_client "ticket-42" st1 sta
              [system_message; user_message "sql is slow"] m0 [r0] sample_world []).
    - vm_compute. reflexivity.
    - reflexivity.
    - discriminate.
    - exact Hans.
    - apply iterates_nil. }
  destruct (tool_failure_ends_turn second_round_client ticket_request empty_app st1 sta
              "ticket-42" [(m0, [r0])]
              ([system_message; user_message "sql is slow"] ++ block m0 [r0])%list
              (mkAssistant None [dependencies_call; misnamed_call; dependencies_call])
              [dependencies_call] [dependencies_call] misnamed_call [r0]
              sample_world sample_world
              (TypeError "get_service_health() got an unexpected keyword argument 'service_name'")
              Hbegin Hrounds) as (Hchat & _).
  - vm_compute. lia.
  - vm_compute. reflexivity.
  - reflexivity.
  - reflexivity.
  - exact Hans.
  - vm_compute. reflexivity.
  - rewrite Hchat. vm_compute. repeat split.
Defined.

(** ** The iteration budget *)





(** ** The order of the stored messages *)




(** * Further properties of the tools *)

Lemma yields_ret {S A : Type} (a : A) (s : S) (Q : A -> S -> Prop) :
  Q a s -> yields (ret a) s Q.
Proof. intros H. exists a, s. split; [reflexivity | exact H]. Qed.

Lemma yields_bind {S A B : Type} (m : M S A) (f : A -> M S B) (s : S)
    (Q : B -> S -> Prop) :
  yields m s (fun a s' => yields (f a) s' Q) -> yields (bind m f) s Q.
Proof.
  intros (a & s' & Hm & b & s'' & Hf & HQ).
  exists b, s''. split; [|exact HQ]. rewrite (bind_returned _ _ _ _ _ Hm). exact Hf.
Qed.

Lemma yields_weaken {S A : Type} (m : M S A) (s : S) (P Q : A -> S -> Prop) :
  yields m s P -> (forall a s', P a s' -> Q a s') -> yields m s Q.
Proof. intros (a & s' & Hm & HP) HPQ. exists a, s'. split; [exact Hm | now apply HPQ]. Qed.

Lemma yields_utcnow (w : World) (Q : N -> World -> Prop) :
  Q (clock_src w (clock_pos w)) (tick_clock w) -> yields utcnow w Q.
Proof. intros H. eexists. eexists. split; [reflexivity | exact H]. Qed.

Lemma yields_randint (a b : Z) (w : World) (Q : Z -> World -> Prop) :
  a <= b -> (forall x, a <= x <= b -> Q x (tick_rand w)) -> yields (randint a b) w Q.
Proof.
  intros Hab HQ. destruct (randint_spec a b w Hab) as (x & Hx & Hr).
  exists x, (tick_rand w). split; [exact Hx | now apply HQ].
Qed.

Lemma yields_lift {S A : Type} (a : A) (s : S) (Q : A -> S -> Prop) :
  Q a s -> yields (lift (Returned a)) s Q.
Proof. intros H. exists a, s. split; [reflexivity | exact H]. Qed.

Lemma generate_metrics_spec (resource_name metric_type time_range : pyval) (w : World) :
  yields (_generate_metrics resource_name metric_type time_range) w
    (fun r _ =>
       exists cpu memory latency requests errors,
         r = JObj [("resource", to_json resource_name);
                   ("time_range", to_json time_range);
                   ("collected_at", JTime (Z.of_N (clock_src w (clock_pos w))));
                   ("data", JObj (cpu ++ memory ++ latency ++ requests ++ errors))]
         /\ selected metric_type "cpu" (cpu_block resource_name) cpu
         /\ selected metric_type "memory" (fun _ => True) memory
         /\ selected metric_type "latency" (fun _ => True) latency
         /\ selected metric_type "requests" (requests_block resource_name) requests
         /\ selected metric_type "errors" (errors_block resource_name) errors).
Proof.
  unfold _generate_metrics.
  apply yields_bind, yields_utcnow.
  apply yields_bind.
  apply (yields_weaken _ _ (fun cpu _ => selected metric_type "cpu" (cpu_block resource_name) cpu)).
  { unfold selected. destruct (in_strs metric_type ["cpu"; "all"]).
    - apply yields_bind, yields_randint; [lia|]. intros x Hx. apply yields_ret.
      split; [exists x; split; [exact Hx | reflexivity] | eexists; reflexivity].
    - apply yields_ret. reflexivity. }
  intros cpu w1 Hcpu. apply yields_bind.
  apply (yields_weaken _ _ (fun memory _ => selected metric_type "memory" (fun _ => True) memory)).
  { unfold selected. destruct (in_strs metric_type ["memory"; "all"]).
    - apply yields_bind, yields_randint; [lia|]. intros x Hx. apply yields_ret.
      split; [exact I | eexists; reflexivity].
    - apply yields_ret. reflexivity. }
  intros memory w2 Hmemory. apply yields_bind.
  apply (yields_weaken _ _ (fun latency _ => selected metric_type "latency" (fun _ => True) latency)).
  { unfold selected. destruct (in_strs metric_type ["latency"; "all"]).
    - apply yields_ret. split; [exact I | eexists; reflexivity].
    - apply yields_ret. reflexivity. }
  intros latency w3 Hlatency. apply yields_bind.
  apply (yields_weaken _ _
           (fun requests _ => selected metric_type "requests" (requests_block resource_name) requests)).
  { unfold selected. destruct (in_strs metric_type ["requests"; "all"]).
    - apply yields_bind, yields_randint; [lia|]. intros total Ht.
      apply yields_bind, yields_randint; [lia|]. intros successful Hs.
      apply yields_bind.
      apply (yields_weaken _ _
               (fun failed _ => if eq_str resource_name "api-gateway"
                                then 100 <= failed <= 2000 else 10 <= failed <= 100)).
      { destruct (eq_str resource_name "api-gateway");
          (apply yields_randint; [lia|]); intros x Hx; exact Hx. }
      intros failed w4 Hf.
      apply yields_bind, yields_randint; [lia|]. intros rate Hr. apply yields_ret.
      split; [|eexists; reflexivity].
      exists total, successful, failed, rate. repeat split; try lia; exact Hf.
    - apply yields_ret. reflexivity. }
  intros requests w4 Hrequests. apply yields_bind.
  apply (yields_weaken _ _
           (fun errors _ => selected metric_type "errors" (errors_block resource_name) errors)).
  { unfold selected. destruct (in_strs metric_type ["errors"; "all"]).
    - apply yields_bind.
      apply (yields_weaken _ _
               (fun n _ => if eq_str resource_name "api-gateway"
                           then 500 <= n <= 2000 else 5 <= n <= 50)).
      { destruct (eq_str resource_name "api-gateway");
          (apply yields_randint; [lia|]); intros x Hx; exact Hx. }
      intros error_count w5 He. apply yields_ret.
      split; [|eexists; reflexivity].
      exists error_count. split; [exact He|]. reflexivity.
    - apply yields_ret. reflexivity. }
  intros errors w5 Herrors. apply yields_ret.
  exists cpu, memory, latency, requests, errors. repeat split; assumption.
Qed.

Ltac split_selected :=
  repeat match goal with
         | H : selected _ _ _ _ |- _ => unfold selected in H
         | H : (if in_strs ?m ?l then _ else _) |- _ =>
             let E := fresh "E" in destruct (in_strs m l) eqn:E
         | H : _ /\ _ |- _ => destruct H
         | H : exists _, _ |- _ => destruct H
         end; subst.


(** X2.  When the CPU block is selected, its reading lies between the
    block's own minimum and maximum, and its status follows the resource
    alone: "critical" with a reading of 80 to 95 for [web-app-prod],
    "healthy" with a reading of 30 to 45 for every other resource. *)
Theorem cpu_reading_within_bounds
    (resource_name metric_type time_range : pyval) (w : World) :
  in_strs metric_type ["cpu"; "all"] = true ->
  exists r w' current low high,
    get_system_metrics resource_name metric_type time_range w = (Returned r, w')
    /\ jpath ["data"; "cpu"; "current_percent"] r = Some (JInt current)
    /\ jpath ["data"; "cpu"; "min_percent"] r = Some (JInt low)
    /\ jpath ["data"; "cpu"; "max_percent"] r = Some (JInt high)
    /\ low <= current <= high
    /\ if eq_str resource_name "web-app-prod"
       then 80 <= current <= 95
            /\ jpath ["data"; "cpu"; "status"] r = Some (JStr "critical")
       else 30 <= current <= 45
            /\ jpath ["data"; "cpu"; "status"] r = Some (JStr "healthy").
Proof.
  intros Hsel.
  destruct (generate_metrics_spec resource_name metric_type time_range w)
    as (r & w' & Hrun & cpu & memory & latency & requests & errors & -> & H1 & _).
  unfold selected in H1. rewrite Hsel in H1.
  destruct H1 as ((jitter & Hj & ->) & _).
  eexists. exists w'. eexists. eexists. eexists.
  split; [exact Hrun|]. split; [reflexivity|]. split; [reflexivity|].
  split; [reflexivity|]. split; [lia|].
  destruct (eq_str resource_name "web-app-prod"); (split; [lia | reflexivity]).
Qed.

Lemma cpu_reading_within_bounds_witness :
  exists r w' current low high,
    get_system_metrics (VStr "sql-db-main") (VStr "all") (VStr "6h") sample_world
    = (Returned r, w')
    /\ jpath ["data"; "cpu"; "current_percent"] r = Some (JInt current)
    /\ jpath ["data"; "cpu"; "min_percent"] r = Some (JInt low)
    /\ jpath ["data"; "cpu"; "max_percent"] r = Some (JInt high)
    /\ low <= current <= high
    /\ 30 <= current <= 45
    /\ jpath ["data"; "cpu"; "status"] r = Some (JStr "healthy").
Proof.
  exact (cpu_reading_within_bounds (VStr "sql-db-main") (VStr "all") (VStr "6h")
           sample_world eq_refl).
Defined.

(** X3.  When the errors block is selected, [api-gateway] shows 500 to
    2000 errors with status "critical" and every other resource 5 to 50 with
    status "healthy", whatever the randomness. *)
Theorem error_spike_on_api_gateway
    (resource_name metric_type time_range : pyval) (w : World) :
  in_strs metric_type ["errors"; "all"] = true ->
  exists r w' total,
    get_system_metrics resource_name metric_type time_range w = (Returned r, w')
    /\ jpath ["data"; "errors"; "total"] r = Some (JInt total)
    /\ if eq_str resource_name "api-gateway"
       then 500 <= total <= 2000
            /\ jpath ["data"; "errors"; "status"] r = Some (JStr "critical")
       else 5 <= total <= 50
            /\ jpath ["data"; "errors"; "status"] r = Some (JStr "healthy").
Proof.
  intros Hsel.
  destruct (generate_metrics_spec resource_name metric_type time_range w)
    as (r & w' & Hrun & cpu & memory & latency & requests & errors & -> & H1 & H2 & H3 & H4 & H5).
  unfold selected in H5. rewrite Hsel in H5.
  destruct H5 as ((total & Ht & ->) & _).
  eexists. exists w', total. split; [exact Hrun|]. clear Hrun Hsel.
  split_selected;
    (split; [reflexivity|]);
    destruct (eq_str resource_name "api-gateway"); (split; [lia | reflexivity]).
Qed.

Lemma error_spike_on_api_gateway_witness :
  exists r w' total,
    get_system_metrics (VStr "api-gateway") (VStr "errors") (VStr "1h") sample_world
    = (Returned r, w')
    /\ jpath ["data"; "errors"; "total"] r = Some (JInt total)
    /\ 500 <= total <= 2000
    /\ jpath ["data"; "errors"; "status"] r = Some (JStr "critical").
Proof.
  exact (error_spike_on_api_gateway (VStr "api-gateway") (VStr "errors") (VStr "1h")
           sample_world eq_refl).
Defined.

(** ** Logs *)

Lemma choice_in {A : Type} (x : A) (rest : list A) (w : World) :
  exists y, choice (x :: rest) w = (Returned y, tick_rand w) /\ In y (x :: rest).
Proof.
  eexists. split; [reflexivity|].
  apply nth_In.
  pose proof (Z.mod_pos_bound (rand_src w (rand_pos w)) (Z.of_nat (length (x :: rest)))) as Hb.
  simpl length in *. lia.
Qed.



Lemma generate_logs_spec (resource_name severity : pyval) (limit : Z) (w : World) :
  yields (_generate_logs resource_name severity (VInt limit)) w
    (fun logs _ =>
       exists raw,
         logs = slice_to limit (sort_desc log_timestamp raw)
         /\ length raw
            = Z.to_nat (Z.min limit
                          (Z.of_nat (length (templates_for resource_name severity)) * 3))
         /\ Forall (drawn_from (templates_for resource_name severity)
                      (clock_src w (clock_pos w))) raw).
Proof.
  unfold _generate_logs.
  apply yields_bind, yields_utcnow.
  set (now := clock_src w (clock_pos w)).
  set (T := templates_for resource_name severity).
  apply yields_bind. unfold py_min. apply yields_lift.
  apply yields_bind. unfold for_range.
  set (body := fun _ : nat => _).
  set (n := Z.to_nat (Z.min limit (Z.of_nat (length T) * 3))).
  assert (Hbody : n <> 0%nat ->
                  forall i, In i (seq 0 n) ->
                  forall w0, exists x w1, body i w0 = (Returned x, w1) /\ drawn_from T now x).
  { intros Hn i _ w0. unfold body.
    destruct T as [|t0 rest] eqn:ET; [simpl in n; lia|].
    destruct (choice_in t0 rest w0) as (t & Ht & Hin).
    unfold bind at 1. unfold bind at 1. rewrite Ht. cbn [ret].
    destruct (randint_spec 1 360 (tick_rand w0)) as (minutes & Hmin & Hrange); [lia|].
    rewrite (bind_returned _ _ _ _ _ Hmin).
    unfold lift at 1. unfold bind at 1.
    rewrite (ago_returns now 0 0 minutes)
      by (unfold US_PER_DAY, US_PER_HOUR, US_PER_MINUTE; lia).
    destruct (randint_spec 10000 99999 (tick_rand (tick_rand w0))) as (corr & Hcorr & _);
      [lia|].
    rewrite (bind_returned _ _ _ _ _ Hcorr).
    eexists. eexists. split; [reflexivity|]. unfold drawn_from. simpl. split.
    - exists (snd t). split; [reflexivity|]. destruct t as [[msg sev] src]. exact Hin.
    - unfold US_PER_MINUTE in *. lia. }
  destruct (Nat.eq_dec n 0%nat) as [Hz|Hnz].
  - rewrite Hz. simpl. apply yields_ret. apply yields_ret.
    exists []. split; [reflexivity|]. split; [reflexivity | constructor].
  - destruct (for_each_spec body (drawn_from T now) _ (Hbody Hnz) (tick_clock w))
      as (raw & w' & Hraw & Hlen & Hall).
    exists raw, w'. split; [exact Hraw|]. apply yields_ret.
    exists raw. split; [reflexivity|]. split; [|exact Hall].
    rewrite Hlen. apply length_seq.
Qed.



Lemma known_severity_has_templates (resource_name severity : pyval) :
  if in_strs severity ["all"; "error"; "warning"; "info"]
  then (1 <= length (templates_for resource_name severity))%nat
  else templates_for resource_name severity = [].
Proof.
  destruct (in_strs severity ["all"; "error"; "warning"; "info"]) eqn:Hknown.
  - assert (Hin : exists t, In t (templates_for resource_name severity)).
    { unfold in_strs in Hknown. simpl in Hknown.
      assert (Hcases : severity = VStr "all" \/ severity = VStr "error"
                       \/ severity = VStr "warning" \/ severity = VStr "info").
      { repeat (apply orb_true_iff in Hknown as [Hknown|Hknown];
                [apply eq_str_true in Hknown; tauto|]).
        discriminate. }
      assert (Hkeep : forall t : string * string * string,
                 snd t = "web-app-prod" ->
                 eq_str resource_name (snd t) || String.eqb (snd t) "web-app-prod" = true).
      { intros t ->. apply orb_true_r. }
      unfold templates_for.
      destruct Hcases as [-> | [-> | [-> | ->]]];
        [exists ("Out of memory: Container killed by OOM killer", "error", "web-app-prod")
        |exists ("Out of memory: Container killed by OOM killer", "error", "web-app-prod")
        |exists ("High CPU utilization detected (>80%)", "warning", "web-app-prod")
        |exists ("Health check passed", "info", "web-app-prod")];
        (destruct (negb (eq_str resource_name "all"));
         [apply filter_In; split; [simpl; tauto | apply Hkeep; reflexivity]
         | simpl; tauto]). }
    destruct Hin as (t & Ht). destruct (templates_for resource_name severity); [destruct Ht|].
    simpl. lia.
  - unfold in_strs in Hknown. simpl in Hknown.
    repeat (apply orb_false_iff in Hknown as [? Hknown]).
    unfold templates_for, in_strs. simpl existsb.
    repeat match goal with H : eq_str severity _ = false |- _ => rewrite H; clear H end.
    simpl. destruct (negb (eq_str resource_name "all")); reflexivity.
Qed.

(** X5.  For a non-negative limit [get_recent_logs] returns exactly
    [min(limit, 3 * number of templates that pass the filters)] entries.  For
    the severities "all", "error", "warning" and "info" at least one template
    passes, for every resource, so a limit of at least 1 gives at least one
    entry; for any other severity the list is empty. *)
Theorem recent_logs_count
    (resource_name severity : pyval) (limit : Z) (w : World) :
  0 <= limit ->
  exists r w' count,
    get_recent_logs resource_name severity (VInt limit) w = (Returned r, w')
    /\ jget "count" r = Some (JInt count)
    /\ count = Z.min limit (Z.of_nat (length (templates_for resource_name severity)) * 3)
    /\ if in_strs severity ["all"; "error"; "warning"; "info"]
       then Z.min limit 3 <= count
       else count = 0.
Proof.
  intros Hlimit.
  destruct (generate_logs_spec resource_name severity limit w)
    as (logs & w' & Hgen & raw & -> & Hlen & _).
  eexists. exists w'. eexists. unfold get_recent_logs.
  rewrite (bind_returned _ _ _ _ _ Hgen).
  split; [reflexivity|]. split; [reflexivity|].
  assert (Hcount : Z.of_nat (length (slice_to limit (sort_desc log_timestamp raw)))
                   = Z.min limit
                       (Z.of_nat (length (templates_for resource_name severity)) * 3)).
  { unfold slice_to. destruct (Z.ltb_spec limit 0) as [Hneg|_]; [lia|].
    rewrite length_firstn, sort_desc_length, Hlen. lia. }
  split; [exact Hcount|]. rewrite Hcount.
  pose proof (known_severity_has_templates resource_name severity) as Hknown.
  destruct (in_strs severity ["all"; "error"; "warning"; "info"]).
  - lia.
  - rewrite Hknown. simpl. lia.
Qed.

Lemma recent_logs_count_witness :
  exists r w' count,
    get_recent_logs (VStr "storage-prod") (VStr "error") (VInt 20) sample_world
    = (Returned r, w')
    /\ jget "count" r = Some (JInt count)
    /\ count = Z.min 20 (Z.of_nat (length (templates_for (VStr "storage-prod") (VStr "error"))) * 3)
    /\ Z.min 20 3 <= count.
Proof.
  apply (recent_logs_count (VStr "storage-prod") (VStr "error") 20 sample_world). lia.
Defined.

(** ** Changes *)








(** ** Configuration and resource details *)

(** X7.  [get_system_config] never answers with an error and always
    echoes the resource name.  For a resource of the inventory it answers
    with the stored type, configuration and tags and ignores the
    [resource_type] argument; for any other name it echoes the argument. *)
Theorem system_config_ignores_type_of_known_resource
    (resource_name resource_type other_type : pyval) :
  has_key "error" (get_system_config resource_name resource_type) = false
  /\ jget "resource_name" (get_system_config resource_name resource_type)
     = Some (to_json resource_name)
  /\ match find_resource resource_name with
     | Some resource =>
         get_system_config resource_name resource_type
         = get_system_config resource_name other_type
         /\ jget "resource_type" (get_system_config resource_name resource_type)
            = Some (JStr (res_type resource))
         /\ jget "configuration" (get_system_config resource_name resource_type)
            = Some (res_config resource)
         /\ jget "tags" (get_system_config resource_name resource_type)
            = Some (res_tags resource)
     | None =>
         jget "resource_type" (get_system_config resource_name resource_type)
         = Some (to_json resource_type)
     end.
Proof.
  unfold get_system_config.
  destruct (find_resource resource_name) as [resource|]; repeat split; reflexivity.
Qed.

Lemma get_resource_details_spec (resource_name : pyval) (w : World) :
  yields (get_resource_details resource_name) w
    (fun r w' =>
       match find_resource resource_name with
       | Some resource =>
           w' = tick_clock (tick_clock w)
           /\ r = JObj [("resource_name", to_json resource_name);
                        ("resource_type", JStr (res_type resource));
                        ("resource_group", JStr (res_resource_group resource));
                        ("subscription", JStr (res_subscription resource));
                        ("region", JStr (res_region resource));
                        ("tags", res_tags resource);
                        ("provisioning_state", JStr "Succeeded");
                        ("created_at",
                         JTime (Z.of_N (clock_src w (clock_pos w)) - 180 * US_PER_DAY));
                        ("last_modified",
                         JTime (Z.of_N (clock_src w (S (clock_pos w))) - 2 * US_PER_HOUR));
                        ("resource_id",
                         JStr ("/subscriptions/" ++ res_subscription resource
                               ++ "/resourceGroups/" ++ res_resource_group resource
                               ++ "/providers/Microsoft.App/containerApps/"
                               ++ py_str resource_name))]
       | None =>
           w' = w
           /\ r = JObj [("resource_name", to_json resource_name);
                        ("error", JStr "Resource not found in inventory");
                        ("suggestion",
                         JStr "Check resource name spelling or verify the resource exists")]
       end).
Proof.
  unfold get_resource_details.
  destruct (find_resource resource_name) as [resource|].
  - apply yields_bind, yields_utcnow.
    apply yields_bind. rewrite (ago_returns _ 180 0 0)
      by (unfold US_PER_DAY, US_PER_HOUR, US_PER_MINUTE; lia).
    apply yields_lift.
    apply yields_bind, yields_utcnow.
    apply yields_bind. rewrite (ago_returns _ 0 2 0)
      by (unfold US_PER_DAY, US_PER_HOUR, US_PER_MINUTE; lia).
    apply yields_lift. apply yields_ret.
    split; [reflexivity|]. simpl.
    repeat (f_equal; try lia).
  - apply yields_ret. split; reflexivity.
Qed.

(** X8.  [get_resource_details] returns for every name, with an error
    exactly when the name is not in the inventory.  For a resource of the
    inventory it reads the clock twice, dates the creation 180 days and the
    last modification 2 hours before its readings, and builds the resource
    identifier under [Microsoft.App/containerApps], whatever the type of the
    resource. *)
Theorem resource_details_error_iff_unknown (resource_name : pyval) (w : World) :
  exists r w',
    get_resource_details resource_name w = (Returned r, w')
    /\ has_key "error" r = negb (in_inventory resource_name)
    /\ match find_resource resource_name with
       | Some resource =>
           clock_pos w' = S (S (clock_pos w))
           /\ jget "resource_type" r = Some (JStr (res_type resource))
           /\ jget "created_at" r
              = Some (JTime (Z.of_N (clock_src w (clock_pos w)) - 180 * US_PER_DAY))
           /\ jget "last_modified" r
              = Some (JTime (Z.of_N (clock_src w (S (clock_pos w))) - 2 * US_PER_HOUR))
           /\ jget "resource_id" r
              = Some (JStr ("/subscriptions/" ++ res_subscription resource
                            ++ "/resourceGroups/" ++ res_resource_group resource
                            ++ "/providers/Microsoft.App/containerApps/"
                            ++ py_str resource_name))
       | None => w' = w /\ has_key "suggestion" r = true
       end.
Proof.
  destruct (get_resource_details_spec resource_name w) as (r & w' & Hrun & Hspec).
  exists r, w'. split; [exact Hrun|]. unfold in_inventory.
  destruct (find_resource resource_name) as [resource|].
  - destruct Hspec as (-> & ->). repeat split; reflexivity.
  - destruct Hspec as (-> & ->). repeat split; reflexivity.
Qed.

(** * The advertised tools and the keyword calls *)

Lemma assoc_In {A : Type} (k : string) (kv : list (string * A)) (v : A) :
  assoc k kv = Some v -> In (k, v) kv.
Proof.
  induction kv as [|[k' v'] rest IH]; simpl; [discriminate|].
  destruct (String.eqb_spec k k') as [->|_].
  - intros [= ->]. left. reflexivity.
  - intros H. right. apply IH. exact H.
Qed.

Lemma check_keywords_accepts (fname : string) (params : list string)
    (function_args : kwargs) :
  forallb (fun kv => existsb (String.eqb (fst kv)) params) function_args = true ->
  check_keywords fname params function_args = Returned tt.
Proof.
  unfold check_keywords. induction function_args as [|kv rest IH]; simpl; [reflexivity|].
  intros H. apply andb_true_iff in H as (Hkv & Hrest). rewrite Hkv. simpl.
  apply IH. exact Hrest.
Qed.

Lemma check_keywords_refuses (fname : string) (params : list string)
    (function_args : kwargs) :
  forallb (fun kv => existsb (String.eqb (fst kv)) params) function_args = false ->
  exists what, check_keywords fname params function_args = Raised (TypeError what).
Proof.
  unfold check_keywords. induction function_args as [|kv rest IH]; simpl; [discriminate|].
  destruct (existsb (String.eqb (fst kv)) params); simpl.
  - exact IH.
  - intros _. eexists. reflexivity.
Qed.

Lemma keyword_given (fname param : string) (default : option pyval)
    (function_args : kwargs) (v : pyval) :
  assoc param function_args = Some v ->
  keyword fname param default function_args = Returned v.
Proof. intros H. unfold keyword. rewrite H. reflexivity. Qed.

Lemma keyword_defaulted (fname param : string) (d : pyval) (function_args : kwargs) :
  exists v, keyword fname param (Some d) function_args = Returned v
            /\ (assoc param function_args = Some v
                \/ assoc param function_args = None /\ v = d).
Proof.
  unfold keyword. destruct (assoc param function_args) as [v|].
  - exists v. split; [reflexivity | left; reflexivity].
  - exists d. split; [reflexivity | right; split; reflexivity].
Qed.

Lemma keyword_missing (fname param : string) (function_args : kwargs) :
  assoc param function_args = None ->
  exists what, keyword fname param None function_args = Raised (TypeError what).
Proof. intros H. unfold keyword. rewrite H. eexists. reflexivity. Qed.

Lemma missing_arguments_none (fname : string) (required : list string)
    (function_args : kwargs) :
  forallb (fun name => match assoc name function_args with
                       | Some _ => true
                       | None => false
                       end) required = true ->
  missing_arguments fname required function_args = Returned tt.
Proof.
  intros H. unfold missing_arguments.
  replace (List.filter _ required) with (@nil string); [reflexivity|].
  induction required as [|name rest IH]; [reflexivity|].
  simpl in H |- *. destruct (assoc name function_args); [|discriminate H].
  apply IH. exact H.
Qed.

Lemma missing_arguments_some (fname : string) (required : list string)
    (function_args : kwargs) :
  forallb (fun name => match assoc name function_args with
                       | Some _ => true
                       | None => false
                       end) required = false ->
  exists what, missing_arguments fname required function_args = Raised (TypeError what).
Proof.
  intros H. unfold missing_arguments.
  destruct (List.filter _ required) as [|name missing] eqn:E; [|eexists; reflexivity].
  exfalso. induction required as [|name rest IH]; [discriminate H|].
  simpl in H, E. destruct (assoc name function_args); [|discriminate E].
  apply IH; assumption.
Qed.

(** The value given for a typed property has that type. *)
Lemma typed_value (td : json) (function_args : kwargs) (param : string) (p : json) (v : pyval) :
  values_typed td function_args = true ->
  assoc param (definition_properties td) = Some p ->
  assoc param function_args = Some v ->
  has_declared_type v p = true.
Proof.
  intros Htyped Hp Hv. unfold values_typed in Htyped.
  pose proof (proj1 (forallb_forall _ _) Htyped _ (assoc_In _ _ _ Hv)) as H.
  simpl in H. rewrite Hp in H. exact H.
Qed.

Lemma get_service_health_returns (service region : pyval) (w : World) :
  exists r w', get_service_health service region w = (Returned r, w').
Proof.
  unfold get_service_health.
  destruct (eq_str service "Azure SQL" && eq_str region "eastus").
  - rewrite (bind_returned _ _ _ _ _ (utcnow_eq w)).
    unfold lift at 1. unfold bind at 1.
    rewrite (ago_returns _ 0 2 0) by (unfold US_PER_DAY, US_PER_HOUR, US_PER_MINUTE; lia).
    rewrite (bind_returned _ _ _ _ _ (utcnow_eq (tick_clock w))).
    unfold lift at 1. unfold bind at 1.
    rewrite (ago_returns _ 0 0 30) by (unfold US_PER_DAY, US_PER_HOUR, US_PER_MINUTE; lia).
    eexists. eexists. reflexivity.
  - eexists. eexists. reflexivity.
Qed.

Lemma get_recent_logs_returns (resource_name severity : pyval) (limit : Z) (w : World) :
  exists r w', get_recent_logs resource_name severity (VInt limit) w = (Returned r, w').
Proof.
  destruct (generate_logs_returns resource_name severity limit w) as (logs & w' & H & _).
  eexists. exists w'. unfold get_recent_logs. rewrite (bind_returned _ _ _ _ _ H).
  reflexivity.
Qed.

Lemma get_recent_changes_returns (resource_name : pyval) (days : Z) (w : World) :
  days <= 719161 ->
  exists r w', get_recent_changes resource_name (VInt days) w = (Returned r, w').
Proof.
  intros Hdays.
  destruct (generate_changes_returns resource_name days w Hdays) as (changes & w' & H).
  eexists. exists w'. unfold get_recent_changes. rewrite (bind_returned _ _ _ _ _ H).
  reflexivity.
Qed.

Lemma integer_value (v : pyval) (more : list (string * json)) (description : string) :
  has_declared_type v (property "integer" description more) = true -> exists z, v = VInt z.
Proof. destruct v as [s|z]; [discriminate | intros _; exists z; reflexivity]. Qed.

Lemma advertised_existsb {A : Type} (k : string) (kv : list (string * A)) :
  match assoc k kv with Some _ => true | None => false end
  = existsb (String.eqb k) (map fst kv).
Proof.
  induction kv as [|[k' v] rest IH]; simpl; [reflexivity|].
  destruct (String.eqb k k'); [reflexivity | exact IH].
Qed.

Lemma keys_advertised_check (fname : string) (td : json) (function_args : kwargs)
    (expected : bool) :
  keys_advertised td function_args = expected ->
  forallb (fun kv => existsb (String.eqb (fst kv)) (map fst (definition_properties td)))
    function_args = expected.
Proof.
  intros <-. unfold keys_advertised. induction function_args as [|kv rest IH]; simpl;
    [reflexivity|].
  rewrite IH. now rewrite advertised_existsb.
Qed.

Lemma returns_yields {S A : Type} (m : M S A) (s : S) :
  (exists a s', m s = (Returned a, s')) -> yields m s (fun _ _ => True).
Proof. intros (a & s' & H). exists a, s'. split; [exact H | exact I]. Qed.

Ltac given_keyword Hreq name :=
  let v := fresh "v" in
  let E := fresh "E" in
  destruct (assoc name _) as [v|] eqn:E; [|discriminate Hreq];
  apply yields_bind; rewrite (keyword_given _ name _ _ v E); apply yields_lift.

Ltac defaulted_keyword name :=
  let v := fresh "v" in
  let E := fresh "E" in
  let H := fresh "H" in
  apply yields_bind;
  match goal with
  | |- yields (lift (keyword ?f name (Some ?d) ?args)) _ _ =>
      destruct (keyword_defaulted f name d args) as (v & E & H); rewrite E
  end;
  apply yields_lift.

Lemma conforming_dispatch_yields (td : json) (function_args : kwargs) (w : World) :
  In td TOOL_DEFINITIONS ->
  conforms td function_args = true ->
  (forall d, assoc "days" function_args = Some (VInt d) -> d <= 719161) ->
  yields (dispatch (definition_name td) function_args) w (fun _ _ => True).
Proof.
  intros Hin Hconf Hdays. unfold conforms in Hconf.
  apply andb_true_iff in Hconf as (Hconf & Htyped).
  apply andb_true_iff in Hconf as (Hkeys & Hreq).
  pose proof (fun fname => check_keywords_accepts fname _ _
                (keys_advertised_check fname td function_args true Hkeys)) as Hcheck.
  pose proof (fun fname => missing_arguments_none fname _ _ Hreq) as Hmiss.
  simpl in Hin.
  destruct Hin as [<-|[<-|[<-|[<-|[<-|[<-|[<-|[]]]]]]]];
    unfold dispatch; cbn [definition_name jpath jget function_tool assoc String.eqb
                           Ascii.eqb Bool.eqb TOOL_FUNCTIONS];
    cbv beta iota;
    unfold required_given in Hreq; cbn in Hreq.
  - unfold call_get_system_config. cbv zeta.
    assert (Hc : check_keywords "get_system_config" ["resource_name"; "resource_type"] function_args = Returned tt)
      by exact (Hcheck "get_system_config").
    apply yields_bind. rewrite Hc. apply yields_lift.
    assert (Hm : missing_arguments "get_system_config" ["resource_name"; "resource_type"] function_args = Returned tt)
      by exact (Hmiss "get_system_config").
    apply yields_bind. rewrite Hm. apply yields_lift.
    destruct (assoc "resource_name" function_args) as [v1|] eqn:E1; [|discriminate Hreq].
    destruct (assoc "resource_type" function_args) as [v2|] eqn:E2; [|discriminate Hreq].
    apply yields_bind. rewrite (keyword_given _ _ _ _ v1 E1). apply yields_lift.
    apply yields_bind. rewrite (keyword_given _ _ _ _ v2 E2). apply yields_lift.
    apply yields_ret. exact I.
  - unfold call_get_system_metrics. cbv zeta.
    assert (Hc : check_keywords "get_system_metrics" ["resource_name"; "metric_type"; "time_range"] function_args = Returned tt)
      by exact (Hcheck "get_system_metrics").
    apply yields_bind. rewrite Hc. apply yields_lift.
    assert (Hm : missing_arguments "get_system_metrics" ["resource_name"] function_args = Returned tt)
      by exact (Hmiss "get_system_metrics").
    apply yields_bind. rewrite Hm. apply yields_lift.
    destruct (assoc "resource_name" function_args) as [v1|] eqn:E1; [|discriminate Hreq].
    apply yields_bind. rewrite (keyword_given _ _ _ _ v1 E1). apply yields_lift.
    defaulted_keyword "metric_type". defaulted_keyword "time_range".
    eapply yields_weaken; [apply generate_metrics_spec | intros; exact I].
  - unfold call_get_recent_logs. cbv zeta.
    assert (Hc : check_keywords "get_recent_logs" ["resource_name"; "severity"; "limit"] function_args = Returned tt)
      by exact (Hcheck "get_recent_logs").
    apply yields_bind. rewrite Hc. apply yields_lift.
    assert (Hm : missing_arguments "get_recent_logs" ["resource_name"] function_args = Returned tt)
      by exact (Hmiss "get_recent_logs").
    apply yields_bind. rewrite Hm. apply yields_lift.
    destruct (assoc "resource_name" function_args) as [v1|] eqn:E1; [|discriminate Hreq].
    apply yields_bind. rewrite (keyword_given _ _ _ _ v1 E1). apply yields_lift.
    defaulted_keyword "severity". defaulted_keyword "limit".
    assert (Hint : exists z, v0 = VInt z).
    { destruct H0 as [Hv|(_ & ->)]; [|eexists; reflexivity].
      eapply integer_value. eapply (typed_value _ _ "limit" _ _ Htyped); [|exact Hv].
      reflexivity. }
    destruct Hint as (z & ->). apply returns_yields, get_recent_logs_returns.
  - unfold call_get_service_health. cbv zeta.
    assert (Hc : check_keywords "get_service_health" ["service"; "region"] function_args = Returned tt)
      by exact (Hcheck "get_service_health").
    apply yields_bind. rewrite Hc. apply yields_lift.
    assert (Hm : missing_arguments "get_service_health" ["service"] function_args = Returned tt)
      by exact (Hmiss "get_service_health").
    apply yields_bind. rewrite Hm. apply yields_lift.
    destruct (assoc "service" function_args) as [v1|] eqn:E1; [|discriminate Hreq].
    apply yields_bind. rewrite (keyword_given _ _ _ _ v1 E1). apply yields_lift.
    defaulted_keyword "region".
    apply returns_yields, get_service_health_returns.
  - unfold call_get_recent_changes. cbv zeta.
    assert (Hc : check_keywords "get_recent_changes" ["resource_name"; "days"] function_args = Returned tt)
      by exact (Hcheck "get_recent_changes").
    apply yields_bind. rewrite Hc. apply yields_lift.
    assert (Hm : missing_arguments "get_recent_changes" ["resource_name"] function_args = Returned tt)
      by exact (Hmiss "get_recent_changes").
    apply yields_bind. rewrite Hm. apply yields_lift.
    destruct (assoc "resource_name" function_args) as [v1|] eqn:E1; [|discriminate Hreq].
    apply yields_bind. rewrite (keyword_given _ _ _ _ v1 E1). apply yields_lift.
    defaulted_keyword "days".
    assert (Hint : exists z, v = VInt z /\ z <= 719161).
    { destruct H as [Hv|(_ & ->)]; [|exists 7; split; [reflexivity | lia]].
      destruct (integer_value v [("default", JInt 7)] "Number of days to look back")
        as (z & ->).
      { eapply (typed_value _ _ "days" _ _ Htyped); [|exact Hv]. reflexivity. }
      exists z. split; [reflexivity | apply Hdays; exact Hv]. }
    destruct Hint as (z & -> & Hz). apply returns_yields, get_recent_changes_returns. exact Hz.
  - unfold call_check_dependencies. cbv zeta.
    assert (Hc : check_keywords "check_dependencies" ["resource_name"] function_args = Returned tt)
      by exact (Hcheck "check_dependencies").
    apply yields_bind. rewrite Hc. apply yields_lift.
    assert (Hm : missing_arguments "check_dependencies" ["resource_name"] function_args = Returned tt)
      by exact (Hmiss "check_dependencies").
    apply yields_bind. rewrite Hm. apply yields_lift.
    destruct (assoc "resource_name" function_args) as [v1|] eqn:E1; [|discriminate Hreq].
    apply yields_bind. rewrite (keyword_given _ _ _ _ v1 E1). apply yields_lift.
    apply yields_ret. exact I.
  - unfold call_get_resource_details. cbv zeta.
    assert (Hc : check_keywords "get_resource_details" ["resource_name"] function_args = Returned tt)
      by exact (Hcheck "get_resource_details").
    apply yields_bind. rewrite Hc. apply yields_lift.
    assert (Hm : missing_arguments "get_resource_details" ["resource_name"] function_args = Returned tt)
      by exact (Hmiss "get_resource_details").
    apply yields_bind. rewrite Hm. apply yields_lift.
    destruct (assoc "resource_name" function_args) as [v1|] eqn:E1; [|discriminate Hreq].
    apply yields_bind. rewrite (keyword_given _ _ _ _ v1 E1). apply yields_lift.
    eapply yields_weaken; [apply get_resource_details_spec | intros; exact I].
Qed.

Lemma advertised_is_registered (td : json) :
  In td TOOL_DEFINITIONS ->
  exists handler,
    assoc (definition_name td) TOOL_FUNCTIONS = Some handler
    /\ forall function_args, dispatch (definition_name td) function_args = handler function_args.
Proof.
  simpl. intros [<-|[<-|[<-|[<-|[<-|[<-|[<-|[]]]]]]]];
    eexists; (split; [reflexivity | intros; reflexivity]).
Qed.

(** X9.  A call that follows the advertised schema of a tool (only
    advertised keywords, every required one given, strings and integers where
    the schema declares them) and looks back at most 719161 days never fails:
    the dispatch of the loop returns a result in every world, and the direct
    endpoint answers 200 with the same result. *)
Theorem schema_conforming_call_returns (td : json) (function_args : kwargs) (w : World) :
  In td TOOL_DEFINITIONS ->
  conforms td function_args = true ->
  (forall d, assoc "days" function_args = Some (VInt d) -> d <= 719161) ->
  (exists r w',
     dispatch (definition_name td) function_args w = (Returned r, w')
     /\ call_tool_directly (definition_name td) function_args w
        = (Reply200 (JObj [("tool", JStr (definition_name td));
                           ("arguments", kwargs_json function_args);
                           ("result", r)]), w'))
  /\ forall id, never_fails (mkRequest id (definition_name td) (Mapping function_args)).
Proof.
  intros Hin Hconf Hdays. split.
  - destruct (conforming_dispatch_yields td function_args w Hin Hconf Hdays)
      as (r & w' & Hrun & _).
    exists r, w'. split; [exact Hrun|].
    destruct (advertised_is_registered td Hin) as (handler & Hreg & Hsame).
    unfold call_tool_directly. rewrite Hreg, <- Hsame, Hrun. reflexivity.
  - intros id. exists function_args. split; [reflexivity|]. intros w0.
    destruct (conforming_dispatch_yields td function_args w0 Hin Hconf Hdays)
      as (r & w' & Hrun & _).
    exists r, w'. exact Hrun.
Qed.

Lemma schema_conforming_call_returns_witness :
  exists r w',
    dispatch "get_recent_logs" [("resource_name", VStr "api-gateway"); ("limit", VInt 3)]
      sample_world = (Returned r, w')
    /\ call_tool_directly "get_recent_logs"
         [("resource_name", VStr "api-gateway"); ("limit", VInt 3)] sample_world
       = (Reply200 (JObj [("tool", JStr "get_recent_logs");
                          ("arguments",
                           kwargs_json [("resource_name", VStr "api-gateway");
                                        ("limit", VInt 3)]);
                          ("result", r)]), w').
Proof.
  refine (proj1 (schema_conforming_call_returns
                   (nth 2 TOOL_DEFINITIONS JNull)
                   [("resource_name", VStr "api-gateway"); ("limit", VInt 3)]
                   sample_world _ eq_refl _)).
  - simpl. tauto.
  - intros d Hd. discriminate Hd.
Defined.

Ltac keys_accepted Hcheck f params :=
  let Hc := fresh "Hc" in
  assert (Hc : check_keywords f params _ = Returned tt) by exact (Hcheck f);
  unfold bind at 1; unfold lift at 1; rewrite Hc.

Ltac required_missing Hmiss f required :=
  let what := fresh "what" in
  let Hm := fresh "Hm" in
  let Hm' := fresh "Hm" in
  destruct (Hmiss f) as (what & Hm);
  assert (Hm' : missing_arguments f required _ = Raised (TypeError what)) by exact Hm;
  exists what; unfold bind, lift; rewrite Hm'; reflexivity.

Ltac keys_refused Hkeys f params :=
  let what := fresh "what" in
  let Hc := fresh "Hc" in
  destruct (check_keywords_refuses f params _
              (keys_advertised_check f _ _ false Hkeys)) as (what & Hc);
  exists what; unfold bind, lift; rewrite Hc; reflexivity.

(** X10.  A call with a keyword the tool does not advertise, or without
    a required one, raises [TypeError] before the handler runs: the world is
    untouched, the loop's dispatch raises, and the direct endpoint answers
    500. *)
Theorem misbound_call_raises_type_error (td : json) (function_args : kwargs) (w : World) :
  In td TOOL_DEFINITIONS ->
  keys_advertised td function_args && required_given td function_args = false ->
  exists what,
    dispatch (definition_name td) function_args w = (Raised (TypeError what), w)
    /\ call_tool_directly (definition_name td) function_args w
       = (Reply500 (TypeError what), w).
Proof.
  intros Hin Hbad.
  assert (Hdisp : exists what,
             dispatch (definition_name td) function_args w = (Raised (TypeError what), w)).
  { destruct (keys_advertised td function_args) eqn:Hkeys.
    - simpl in Hbad.
      pose proof (fun fname => check_keywords_accepts fname _ _
                    (keys_advertised_check fname td function_args true Hkeys)) as Hcheck.
      pose proof (fun fname => missing_arguments_some fname _ _ Hbad) as Hmiss.
      simpl in Hin.
      destruct Hin as [<-|[<-|[<-|[<-|[<-|[<-|[<-|[]]]]]]]];
        unfold dispatch; cbn [definition_name jpath jget function_tool assoc String.eqb
                               Ascii.eqb Bool.eqb TOOL_FUNCTIONS];
        cbv beta iota.
      + unfold call_get_system_config. cbv zeta.
        keys_accepted Hcheck "get_system_config" ["resource_name"; "resource_type"].
        required_missing Hmiss "get_system_config" ["resource_name"; "resource_type"].
      + unfold call_get_system_metrics. cbv zeta.
        keys_accepted Hcheck "get_system_metrics" ["resource_name"; "metric_type"; "time_range"].
        required_missing Hmiss "get_system_metrics" ["resource_name"].
      + unfold call_get_recent_logs. cbv zeta.
        keys_accepted Hcheck "get_recent_logs" ["resource_name"; "severity"; "limit"].
        required_missing Hmiss "get_recent_logs" ["resource_name"].
      + unfold call_get_service_health. cbv zeta.
        keys_accepted Hcheck "get_service_health" ["service"; "region"].
        required_missing Hmiss "get_service_health" ["service"].
      + unfold call_get_recent_changes. cbv zeta.
        keys_accepted Hcheck "get_recent_changes" ["resource_name"; "days"].
        required_missing Hmiss "get_recent_changes" ["resource_name"].
      + unfold call_check_dependencies. cbv zeta.
        keys_accepted Hcheck "check_dependencies" ["resource_name"].
        required_missing Hmiss "check_dependencies" ["resource_name"].
      + unfold call_get_resource_details. cbv zeta.
        keys_accepted Hcheck "get_resource_details" ["resource_name"].
        required_missing Hmiss "get_resource_details" ["resource_name"].
    - simpl in Hin.
      destruct Hin as [<-|[<-|[<-|[<-|[<-|[<-|[<-|[]]]]]]]];
        unfold dispatch; cbn [definition_name jpath jget function_tool assoc String.eqb
                               Ascii.eqb Bool.eqb TOOL_FUNCTIONS];
        cbv beta iota.
      + unfold call_get_system_config. cbv zeta.
        keys_refused Hkeys "get_system_config" ["resource_name"; "resource_type"].
      + unfold call_get_system_metrics. cbv zeta.
        keys_refused Hkeys "get_system_metrics" ["resource_name"; "metric_type"; "time_range"].
      + unfold call_get_recent_logs. cbv zeta.
        keys_refused Hkeys "get_recent_logs" ["resource_name"; "severity"; "limit"].
      + unfold call_get_service_health. cbv zeta.
        keys_refused Hkeys "get_service_health" ["service"; "region"].
      + unfold call_get_recent_changes. cbv zeta.
        keys_refused Hkeys "get_recent_changes" ["resource_name"; "days"].
      + unfold call_check_dependencies. cbv zeta.
        keys_refused Hkeys "check_dependencies" ["resource_name"].
      + unfold call_get_resource_details. cbv zeta.
        keys_refused Hkeys "get_resource_details" ["resource_name"]. }
  destruct Hdisp as (what & Hdisp). exists what. split; [exact Hdisp|].
  destruct (advertised_is_registered td Hin) as (handler & Hreg & Hsame).
  unfold call_tool_directly. rewrite Hreg, <- Hsame, Hdisp. reflexivity.
Qed.

Lemma misbound_call_raises_type_error_witness :
  exists what,
    dispatch "get_service_health"
      [("service_name", VStr "Azure SQL"); ("region", VStr "eastus")] sample_world
    = (Raised (TypeError what), sample_world)
    /\ call_tool_directly "get_service_health"
         [("service_name", VStr "Azure SQL"); ("region", VStr "eastus")] sample_world
       = (Reply500 (TypeError what), sample_world).
Proof.
  refine (misbound_call_raises_type_error (nth 3 TOOL_DEFINITIONS JNull)
            [("service_name", VStr "Azure SQL"); ("region", VStr "eastus")]
            sample_world _ eq_refl).
  simpl. tauto.
Defined.

(** X11.  The two paths to a tool agree on what is registered and differ
    in how they answer.  For a name that is not advertised the loop's
    dispatch returns the "Unknown tool" error value and the direct endpoint
    answers 404, neither touching the world; for an advertised name the
    direct endpoint answers 200 with the result the dispatch returns, and 500
    with the exception the dispatch raises. *)
Theorem direct_call_and_dispatch_agree (tool_name : string) (function_args : kwargs)
    (w : World) :
  if existsb (String.eqb tool_name) (map definition_name TOOL_DEFINITIONS)
  then match dispatch tool_name function_args w with
       | (Returned r, w') =>
           call_tool_directly tool_name function_args w
           = (Reply200 (JObj [("tool", JStr tool_name);
                              ("arguments", kwargs_json function_args);
                              ("result", r)]), w')
       | (Raised e, w') =>
           call_tool_directly tool_name function_args w = (Reply500 e, w')
       end
  else dispatch tool_name function_args w
       = (Returned (JObj [("error", JStr ("Unknown tool: " ++ tool_name))]), w)
       /\ call_tool_directly tool_name function_args w
          = (Reply404 ("Tool '" ++ tool_name ++ "' not found"), w).
Proof.
  change (map definition_name TOOL_DEFINITIONS) with (map fst TOOL_FUNCTIONS).
  rewrite <- advertised_existsb.
  unfold dispatch, call_tool_directly.
  destruct (assoc tool_name TOOL_FUNCTIONS) as [handler|].
  - destruct (handler function_args w) as [[r|e] w']; reflexivity.
  - split; reflexivity.
Qed.

(** ** Advertised defaults *)

Lemma assoc_app_other {A : Type} (k k' : string) (v : A) (kv : list (string * A)) :
  k <> k' -> assoc k (kv ++ [(k', v)])%list = assoc k kv.
Proof.
  intros Hne. induction kv as [|[k0 v0] rest IH]; simpl.
  - destruct (String.eqb_spec k k') as [E|_]; [contradiction | reflexivity].
  - rewrite IH. reflexivity.
Qed.

Lemma assoc_app_new {A : Type} (k : string) (v : A) (kv : list (string * A)) :
  assoc k kv = None -> assoc k (kv ++ [(k, v)])%list = Some v.
Proof.
  induction kv as [|[k0 v0] rest IH]; simpl.
  - intros _. rewrite String.eqb_refl. reflexivity.
  - destruct (String.eqb k k0); [discriminate | exact IH].
Qed.

Lemma check_keywords_app (fname : string) (params : list string) (function_args : kwargs)
    (k : string) (v : pyval) :
  existsb (String.eqb k) params = true ->
  check_keywords fname params (function_args ++ [(k, v)])%list
  = check_keywords fname params function_args.
Proof.
  intros Hk. unfold check_keywords.
  induction function_args as [|kv rest IH]; simpl.
  - rewrite Hk. reflexivity.
  - destruct (negb (existsb (String.eqb (fst kv)) params)); [reflexivity | exact IH].
Qed.

Lemma missing_arguments_app (fname : string) (required : list string)
    (function_args : kwargs) (k : string) (v : pyval) :
  existsb (String.eqb k) required = false ->
  missing_arguments fname required (function_args ++ [(k, v)])%list
  = missing_arguments fname required function_args.
Proof.
  intros Hk. unfold missing_arguments.
  replace (List.filter (fun param => match assoc param (function_args ++ [(k, v)])%list with
                                     | Some _ => false
                                     | None => true
                                     end) required)
    with (List.filter (fun param => match assoc param function_args with
                                    | Some _ => false
                                    | None => true
                                    end) required); [reflexivity|].
  induction required as [|name rest IH]; [reflexivity|].
  simpl in Hk |- *. apply orb_false_iff in Hk as (Hname & Hrest).
  rewrite (assoc_app_other name k v function_args).
  - rewrite (IH Hrest). reflexivity.
  - intros ->. rewrite String.eqb_refl in Hname. discriminate Hname.
Qed.

Lemma keyword_app_other (fname param : string) (default : option pyval)
    (function_args : kwargs) (k : string) (v : pyval) :
  param <> k ->
  keyword fname param default (function_args ++ [(k, v)])%list
  = keyword fname param default function_args.
Proof. intros Hne. unfold keyword. rewrite (assoc_app_other _ _ _ _ Hne). reflexivity. Qed.

Lemma keyword_app_default (fname param : string) (d : pyval) (function_args : kwargs) :
  assoc param function_args = None ->
  keyword fname param (Some d) (function_args ++ [(param, d)])%list
  = keyword fname param (Some d) function_args.
Proof.
  intros Hnone. unfold keyword. rewrite (assoc_app_new _ _ _ Hnone), Hnone. reflexivity.
Qed.

Ltac named_property Hp :=
  cbn in Hp;
  match type of Hp with
  | (if String.eqb ?name ?k then _ else _) = _ =>
      revert Hp; destruct (String.eqb_spec name k) as [->|_]; intros Hp;
      [|named_property Hp]
  | _ => idtac
  end.

Ltac default_given Hnone v :=
  exists v; split; [reflexivity|];
  unfold dispatch;
  cbn [definition_name jpath jget function_tool assoc String.eqb Ascii.eqb Bool.eqb
       TOOL_FUNCTIONS];
  cbv beta iota;
  unfold call_get_system_metrics, call_get_recent_logs, call_get_service_health,
    call_get_recent_changes; cbv zeta;
  rewrite check_keywords_app by reflexivity;
  rewrite missing_arguments_app by reflexivity;
  rewrite (keyword_app_default _ _ v _ Hnone);
  rewrite !keyword_app_other by discriminate;
  reflexivity.

(** X18.  The defaults the schema advertises are the defaults of the
    handlers: for every advertised tool and every property with a "default",
    a call that leaves the keyword out behaves in every world exactly as the
    call that gives the advertised default. *)
Theorem advertised_default_is_handler_default
    (td : json) (name : string) (p d : json) (function_args : kwargs) (w : World) :
  In td TOOL_DEFINITIONS ->
  assoc name (definition_properties td) = Some p ->
  jget "default" p = Some d ->
  assoc name function_args = None ->
  exists v,
    to_json v = d
    /\ dispatch (definition_name td) (function_args ++ [(name, v)])%list w
       = dispatch (definition_name td) function_args w.
Proof.
  intros Hin Hp Hd Hnone. simpl in Hin.
  destruct Hin as [<-|[<-|[<-|[<-|[<-|[<-|[<-|[]]]]]]]];
    named_property Hp; try discriminate Hp;
    injection Hp as <-; cbn in Hd; try discriminate Hd; injection Hd as <-.
  - default_given Hnone (VStr "1h").
  - default_given Hnone (VStr "all").
  - default_given Hnone (VInt 20).
  - default_given Hnone (VStr "eastus").
  - default_given Hnone (VInt 7).
Qed.

Lemma advertised_default_is_handler_default_witness :
  exists v,
    to_json v = JStr "eastus"
    /\ dispatch "get_service_health" [("service", VStr "Azure SQL"); ("region", v)]
         sample_world
       = dispatch "get_service_health" [("service", VStr "Azure SQL")] sample_world.
Proof.
  refine (advertised_default_is_handler_default
            (nth 3 TOOL_DEFINITIONS JNull) "region" _ (JStr "eastus")
            [("service", VStr "Azure SQL")] sample_world _ eq_refl eq_refl eq_refl).
  simpl. tauto.
Defined.

(** * Further properties of the chat endpoint *)

Lemma or_else_not_empty (x : option string) (fallback : string) :
  fallback <> "" -> or_else x fallback <> "".
Proof.
  intros Hf. unfold or_else. destruct x as [s|]; [|exact Hf].
  destruct (String.eqb_spec s ""); [exact Hf | assumption].
Qed.

Lemma tool_results_of_batch (calls : list ToolCallRequest) (results : list json) :
  length results = length calls ->
  tool_results (zip_with tool_message calls results) = results
  /\ requested_names (zip_with tool_message calls results) = []
  /\ map result (zip_with trace_entry calls results) = results
  /\ map tool_name (zip_with trace_entry calls results) = map tc_name calls.
Proof.
  revert results. induction calls as [|call calls IH]; intros [|r results] Hlen;
    try discriminate Hlen; [repeat split|].
  injection Hlen as Hlen. destruct (IH results Hlen) as (H1 & H2 & H3 & H4).
  simpl. unfold tool_results, requested_names in *. simpl.
  rewrite H1, H2, H3, H4. repeat split.
Qed.

Lemma agentic_loop_response (client : Client) (cid : string) (n : nat) :
  forall (made : list ToolCall) (msgs : list Message) (st st' : AppState) (r : ChatResponse),
  conversations st !! cid = Some msgs ->
  agentic_loop n client cid made st = (Returned r, st') ->
  conversation_id r = cid /\ response r <> ""
  /\ exists tail,
       conversations st' !! cid = Some (msgs ++ tail)%list
       /\ map result (tool_calls r) = (map result made ++ tool_results tail)%list
       /\ map tool_name (tool_calls r) = (map tool_name made ++ requested_names tail)%list.
Proof.
  induction n as [|n IH]; intros made msgs st st' r Hlook Hrun.
  - simpl in Hrun. injection Hrun as <- <-. split; [reflexivity|]. split; [discriminate|].
    exists []. rewrite !app_nil_r. repeat split. exact Hlook.
  - simpl in Hrun. unfold bind at 1 in Hrun. rewrite (create_spec client cid msgs st Hlook) in Hrun.
    set (st0 := mkApp (conversations st) (world st) (S (completions st))) in *.
    assert (H0 : conversations st0 !! cid = Some msgs) by exact Hlook.
    destruct (client (completions st) msgs) as [m|e]; [|discriminate Hrun].
    destruct (am_tool_calls m) as [|call calls] eqn:Hcalls.
    + destruct (append_message_grows cid
                  (final_message (or_else (am_content m) FALLBACK_REPLY)) msgs st0 H0)
        as (st1 & Happ & (Hconv & _) & _).
      rewrite (bind_returned _ _ _ _ _ Happ) in Hrun. injection Hrun as <- <-.
      split; [reflexivity|]. split; [apply or_else_not_empty; discriminate|].
      exists [final_message (or_else (am_content m) FALLBACK_REPLY)].
      split; [exact Hconv|]. simpl. rewrite !app_nil_r. split; reflexivity.
    + destruct (append_message_grows cid (requests_message m) msgs st0 H0)
        as (st1 & Happ & (Hconv1 & _) & _).
      rewrite (bind_returned _ _ _ _ _ Happ) in Hrun.
      destruct (execute_tool_calls_spec cid (call :: calls) made
                  (msgs ++ [requests_message m])%list st1 Hconv1)
        as (results & (Hconv2 & _) & Hout).
      unfold bind in Hrun.
      destruct (execute_tool_calls cid (call :: calls) made st1) as [[made'|e] st2];
        [|discriminate Hrun].
      cbn [fst snd] in Hconv2, Hout. destruct Hout as (Hlen & ->).
      destruct (IH _ _ st2 st' r Hconv2 Hrun) as (Hid & Hresp & tail & Hconv & Hres & Hnames).
      destruct (tool_results_of_batch (call :: calls) results Hlen) as (B1 & B2 & B3 & B4).
      split; [exact Hid|]. split; [exact Hresp|].
      exists ([requests_message m] ++ zip_with tool_message (call :: calls) results ++ tail)%list.
      split; [rewrite Hconv; now rewrite <- !app_assoc|].
      rewrite Hres, Hnames, !map_app, B3, B4.
      unfold tool_results, requested_names in *.
      rewrite !flat_map_app, B1, B2. simpl. rewrite Hcalls, !app_nil_r, <- !app_assoc.
      split; reflexivity.
Qed.

Lemma resolved_id_not_empty (request : ChatRequest) (st : AppState) :
  resolved_id request st <> "".
Proof.
  unfold resolved_id, minted_id. destruct (req_conversation_id request) as [given|];
    [|discriminate].
  destruct (String.eqb_spec given ""); [discriminate | assumption].
Qed.

(** A run of [chat], step by step. *)
Lemma chat_run (get_openai_client : Outcome Client) (request : ChatRequest)
    (st : AppState) :
  let cid := resolved_id request st in
  exists st1 out st' tail k,
    begin_turn request st = (Returned cid, st1)
    /\ chat get_openai_client request st = (to_http out, st')
    /\ match get_openai_client with
       | Returned client => agentic_loop max_iterations client cid [] st1 = (out, st')
       | Raised e => out = Raised e /\ st' = st1 /\ tail = []
       end
    /\ conversations st1 !! cid
       = Some (base_conversation cid st ++ [turn_message request])%list
    /\ grows cid (base_conversation cid st ++ [turn_message request])%list tail k st1 st'
    /\ (forall other, other <> cid -> conversations st' !! other = conversations st !! other).
Proof.
  intros cid.
  destruct (begin_turn_spec request st) as (cid' & st1 & Hbegin & Hcid & Hlook & Hframe & _).
  fold (resolved_id request st) in Hcid. fold cid in Hcid. subst cid'.
  unfold chat. rewrite (chat_body_eq _ _ _ _ _ Hbegin).
  destruct get_openai_client as [client|e].
  - destruct (agentic_loop max_iterations client cid [] st1) as [out st'] eqn:Hrun.
    destruct (agentic_loop_spec client cid _ _ _ _ _ _ Hlook Hrun)
      as (tail & k & _ & Hgrow & _).
    exists st1, out, st', tail, k. repeat split; try assumption; try apply Hgrow.
    intros other Hne. destruct Hgrow as (_ & Hother & _).
    rewrite (Hother other Hne). apply Hframe. exact Hne.
  - exists st1, (Raised e), st1, [], 0%nat. repeat split; try assumption.
    + apply grows_refl. exact Hlook.
    + lia.
Qed.

(** X12.  A call of [chat] touches one conversation only, the one of its
    non-empty identifier, and there it only appends: every conversation of
    the store is still stored afterwards, with the messages it had as a
    prefix, and every conversation but its own is unchanged. *)
Theorem chat_only_appends_to_its_conversation
    (get_openai_client : Outcome Client) (request : ChatRequest) (st : AppState) :
  resolved_id request st <> ""
  /\ (forall other,
        other <> resolved_id request st ->
        conversations (snd (chat get_openai_client request st)) !! other
        = conversations st !! other)
  /\ (forall id msgs,
        conversations st !! id = Some msgs ->
        exists tail,
          conversations (snd (chat get_openai_client request st)) !! id
          = Some (msgs ++ tail)%list).
Proof.
  destruct (chat_run get_openai_client request st)
    as (st1 & out & st' & tail & k & _ & Hchat & _ & _ & (Hconv & _) & Hframe).
  rewrite Hchat. cbn [snd].
  split; [apply resolved_id_not_empty|]. split; [exact Hframe|].
  intros id msgs Hid.
  destruct (decide (id = resolved_id request st)) as [->|Hne].
  - rewrite Hconv. unfold base_conversation. rewrite Hid.
    eexists. rewrite <- app_assoc. reflexivity.
  - exists []. rewrite app_nil_r, (Hframe id Hne). exact Hid.
Qed.

Lemma chat_answer_spec
    (get_openai_client : Outcome Client) (request : ChatRequest) (st st' : AppState)
    (r : ChatResponse) :
  chat get_openai_client request st = (Ok200 r, st') ->
  response r <> ""
  /\ conversation_id r = resolved_id request st
  /\ conversation_id r <> ""
  /\ exists msgs, conversations st' !! conversation_id r = Some msgs.
Proof.
  intros Hok.
  destruct (chat_run get_openai_client request st)
    as (st1 & out & st2 & tail & k & _ & Hchat & Hloop & Hlook & _ & _).
  rewrite Hchat in Hok. injection Hok as Hout <-.
  destruct out as [r'|e]; [|discriminate Hout]. injection Hout as ->.
  destruct get_openai_client as [client|e]; [|destruct Hloop as (Habs & _); discriminate Habs].
  destruct (agentic_loop_response client _ _ _ _ _ _ _ Hlook Hloop)
    as (Hid & Hresp & tail' & Hconv & _).
  split; [exact Hresp|]. split; [exact Hid|]. rewrite Hid.
  split; [apply resolved_id_not_empty | eexists; exact Hconv].
Qed.

(** X13.  A successful answer of [chat] has a reply that is not empty
    and a conversation identifier that is not empty and names a stored
    conversation, the one the turn ran under. *)
Theorem chat_answer_names_stored_conversation
    (get_openai_client : Outcome Client) (request : ChatRequest) (st st' : AppState)
    (r : ChatResponse) :
  chat get_openai_client request st = (Ok200 r, st') ->
  response r <> ""
  /\ conversation_id r = resolved_id request st
  /\ conversation_id r <> ""
  /\ exists msgs, conversations st' !! conversation_id r = Some msgs.
Proof. exact (chat_answer_spec get_openai_client request st st' r). Qed.

Lemma chat_answer_names_stored_conversation_witness :
  response (mkChatResponse "done" "ticket-42" []) <> ""
  /\ conversation_id (mkChatResponse "done" "ticket-42" [])
     = resolved_id ticket_request empty_app
  /\ conversation_id (mkChatResponse "done" "ticket-42" []) <> ""
  /\ exists msgs,
       conversations (snd (chat (Returned answering_client) ticket_request empty_app))
         !! conversation_id (mkChatResponse "done" "ticket-42" [])
       = Some msgs.
Proof.
  apply (chat_answer_names_stored_conversation (Returned answering_client) ticket_request
           empty_app).
  vm_compute. reflexivity.
Defined.

(** X14.  A follow-up turn that passes the identifier of a successful
    answer continues the stored conversation: afterwards the conversation is
    what the first turn left, then the new user message, then what the second
    run appended; no system message is added and nothing is lost. *)
Theorem follow_up_turn_continues_history
    (first_client second_client : Outcome Client) (first second : ChatRequest)
    (st st1 : AppState) (r : ChatResponse) :
  chat first_client first st = (Ok200 r, st1) ->
  req_conversation_id second = Some (conversation_id r) ->
  exists history tail,
    conversations st1 !! conversation_id r = Some history
    /\ conversations (snd (chat second_client second st1)) !! conversation_id r
       = Some (history ++ [turn_message second] ++ tail)%list.
Proof.
  intros Hfirst Hid.
  destruct (chat_answer_spec first_client first st st1 r Hfirst)
    as (_ & _ & Hne & history & Hhistory).
  destruct (chat_run second_client second st1)
    as (st2 & out & st' & tail & k & _ & Hchat & _ & _ & (Hconv & _) & _).
  assert (Hres : resolved_id second st1 = conversation_id r).
  { unfold resolved_id. rewrite Hid.
    destruct (String.eqb_spec (conversation_id r) ""); [contradiction | reflexivity]. }
  rewrite Hres in Hconv. unfold base_conversation in Hconv. rewrite Hhistory in Hconv.
  exists history, tail. split; [exact Hhistory|].
  rewrite Hchat. cbn [snd]. rewrite Hconv, <- app_assoc. reflexivity.
Qed.

Lemma follow_up_turn_continues_history_witness :
  exists history tail,
    conversations (snd (chat (Returned answering_client) ticket_request empty_app))
      !! "ticket-42" = Some history
    /\ conversations
         (snd (chat (Returned answering_client) follow_up_request
                 (snd (chat (Returned answering_client) ticket_request empty_app))))
         !! "ticket-42"
       = Some (history ++ [turn_message follow_up_request] ++ tail)%list.
Proof.
  apply (follow_up_turn_continues_history (Returned answering_client)
           (Returned answering_client) ticket_request follow_up_request empty_app
           (snd (chat (Returned answering_client) ticket_request empty_app))
           (mkChatResponse "done" "ticket-42" [])).
  - vm_compute. reflexivity.
  - reflexivity.
Defined.

(** X15.  The trace of a successful answer lists exactly the tool calls
    of the run: its results are the results carried by the tool messages the
    run appended, in the same order, and its tool names are the names
    requested by the assistant messages the run appended, in the same
    order. *)
Theorem trace_matches_appended_tool_messages
    (get_openai_client : Outcome Client) (request : ChatRequest) (st st' : AppState)
    (r : ChatResponse) :
  chat get_openai_client request st = (Ok200 r, st') ->
  exists tail,
    conversations st' !! conversation_id r
    = Some (base_conversation (conversation_id r) st ++ [turn_message request] ++ tail)%list
    /\ map result (tool_calls r) = tool_results tail
    /\ map tool_name (tool_calls r) = requested_names tail.
Proof.
  intros Hok.
  destruct (chat_run get_openai_client request st)
    as (st1 & out & st2 & tail & k & _ & Hchat & Hloop & Hlook & _ & _).
  rewrite Hchat in Hok. injection Hok as Hout <-.
  destruct out as [r'|e]; [|discriminate Hout]. injection Hout as ->.
  destruct get_openai_client as [client|e]; [|destruct Hloop as (Habs & _); discriminate Habs].
  destruct (agentic_loop_response client _ _ _ _ _ _ _ Hlook Hloop)
    as (Hid & _ & tail' & Hconv & Hres & Hnames).
  exists tail'. rewrite Hid. split; [rewrite Hconv, <- app_assoc; reflexivity|].
  split; [exact Hres | exact Hnames].
Qed.

Lemma trace_matches_appended_tool_messages_witness :
  exists tail,
    conversations (snd (chat (Returned insisting_client) ticket_request empty_app))
      !! "ticket-42"
    = Some (base_conversation "ticket-42" empty_app ++ [turn_message ticket_request] ++ tail)%list
    /\ map result (repeat (mkToolCall "check_dependencies"
                             [("resource_name", VStr "web-app-prod")]
                             (check_dependencies (VStr "web-app-prod"))) 10)
       = tool_results tail
    /\ map tool_name (repeat (mkToolCall "check_dependencies"
                                [("resource_name", VStr "web-app-prod")]
                                (check_dependencies (VStr "web-app-prod"))) 10)
       = requested_names tail.
Proof.
  apply (trace_matches_appended_tool_messages (Returned insisting_client) ticket_request
           empty_app
           (snd (chat (Returned insisting_client) ticket_request empty_app))
           (mkChatResponse LIMIT_REPLY "ticket-42"
              (repeat (mkToolCall "check_dependencies"
                         [("resource_name", VStr "web-app-prod")]
                         (check_dependencies (VStr "web-app-prod"))) 10))).
  vm_compute. reflexivity.
Defined.

(** X16.  Deleting a stored conversation answers 200, removes that
    conversation only, and makes a second deletion answer 404; a later turn
    under the same identifier starts a new conversation with the system
    message and the new user message alone. *)
Theorem deleted_conversation_starts_afresh
    (cid : string) (request : ChatRequest) (msgs : list Message) (st : AppState) :
  conversations st !! cid = Some msgs ->
  cid <> "" ->
  req_conversation_id request = Some cid ->
  exists st1 st2,
    clear_conversation cid st
    = (Reply200 (JObj [("status", JStr "deleted"); ("conversation_id", JStr cid)]), st1)
    /\ conversations st1 !! cid = None
    /\ (forall other, other <> cid -> conversations st1 !! other = conversations st !! other)
    /\ clear_conversation cid st1 = (Reply404 "Conversation not found", st1)
    /\ begin_turn request st1 = (Returned cid, st2)
    /\ conversations st2 !! cid = Some [system_message; turn_message request].
Proof.
  intros Hlook Hne Hreq.
  set (st1 := mkApp (delete cid (conversations st)) (world st) (completions st)).
  assert (Hgone : conversations st1 !! cid = None) by apply lookup_delete_eq.
  destruct (begin_turn_spec request st1) as (cid' & st2 & Hbegin & Hcid & Hconv & _).
  rewrite Hreq in Hcid. destruct (String.eqb_spec cid ""); [contradiction|]. subst cid'.
  unfold base_conversation in Hconv. rewrite Hgone in Hconv.
  exists st1, st2. split; [unfold clear_conversation; rewrite Hlook; reflexivity|].
  split; [exact Hgone|]. split.
  - intros other Hother. apply lookup_delete_ne. congruence.
  - split; [unfold clear_conversation; rewrite Hgone; reflexivity|].
    split; [exact Hbegin | exact Hconv].
Qed.

Lemma deleted_conversation_starts_afresh_witness :
  exists st1 st2,
    clear_conversation "ticket-42"
      (snd (chat (Returned answering_client) ticket_request empty_app))
    = (Reply200 (JObj [("status", JStr "deleted"); ("conversation_id", JStr "ticket-42")]),
       st1)
    /\ conversations st1 !! "ticket-42" = None
    /\ (forall other, other <> "ticket-42" ->
          conversations st1 !! other
          = conversations (snd (chat (Returned answering_client) ticket_request empty_app))
              !! other)
    /\ clear_conversation "ticket-42" st1 = (Reply404 "Conversation not found", st1)
    /\ begin_turn follow_up_request st1 = (Returned "ticket-42", st2)
    /\ conversations st2 !! "ticket-42"
       = Some [system_message; turn_message follow_up_request].
Proof.
  apply (deleted_conversation_starts_afresh "ticket-42" follow_up_request
           [system_message; user_message "sql is slow"; final_message "done"]).
  - vm_compute. reflexivity.
  - discriminate.
  - reflexivity.
Defined.


